(** * pdf-reconstructor: the page-order decision engine and its report views

    The development has three parts.

    - [JS]: the values the React components compute with.  A JavaScript
      [number] is an IEEE 754 binary64 value, taken from the Standard
      Library's [SpecFloat]; strings are sequences of code units.
    - [ProcessingLogs] and [PDFViewer]: the two components of
      [FE/src/components] whose behaviour the specification talks about,
      embedded from their TypeScript source; [TerminalLogs] and the upload
      page [Index] that feeds it, embedded the same way.
    - [Engine]: the orchestrator of the ordering strategies.  Its Python
      source ([BE/services/ordering_svc.py], [BE/services/strategies.py]) is
      not part of the tree, so it is modelled from the specification.  *)

From Stdlib Require Import ZArith QArith Qminmax Lqa SpecFloat Permutation Ascii String.
From Stdlib Require Import Decimal DecimalString DecimalNat.
From stdpp Require Import gmap strings list.

Local Open Scope nat_scope.

(* ===================================================================== *)
(** ** JavaScript values *)
(* ===================================================================== *)

Module JS.

(** [number]: binary64, i.e. [spec_float] at precision 53 and maximal
    exponent 1024. *)
Definition number : Type := spec_float.

Definition prec : Z := 53.
Definition emax : Z := 1024.

Definition NaN : number := S754_nan.
Definition zero : number := S754_zero false.

(** [a + b] and [a / b]. *)
Definition add (a b : number) : number := SFadd prec emax a b.
Definition div (a b : number) : number := SFdiv prec emax a b.

(** [a >= b] and [a < b]; both are [false] as soon as an operand is NaN. *)
Definition ge (a b : number) : bool := SFleb b a.
Definition lt (a b : number) : bool := SFltb a b.

Definition is_nan (a : number) : bool :=
  match a with S754_nan => true | _ => false end.

(** The number an array length is: an exact small integer. *)
Definition of_nat (n : nat) : number :=
  binary_normalize prec emax (Z.of_nat n) 0 false.

(** The literals [0.8] and [0.6] of the source, as the doubles the parser
    reads them to: 0x1.999999999999ap-1 and 0x1.3333333333333p-1. *)
Definition lit_0_8 : number := S754_finite false 7205759403792794 (-53).
Definition lit_0_6 : number := S754_finite false 5404319552844595 (-53).

(** [arr.reduce((a, b) => a + b, 0)]. *)
Definition sum (xs : list number) : number := fold_left add xs zero.

(** Truthiness of a page index held in a [number]: [0] is falsy. *)
Definition truthy_index (p : nat) : bool := negb (Nat.eqb p 0).

(** A string value whose length and indices matter is the sequence of
    its UTF-16 code units, each a number below 65536: a character outside
    the basic plane takes two of them, a rupee sign (U+20B9) one. *)
Abbreviation code_unit := N (only parsing).
Abbreviation str := (list N) (only parsing).

Definition line_feed_unit : code_unit := 10%N.
Definition space_unit : code_unit := 32%N.

(** An ASCII literal of the source as a string value: one code unit per
    character. *)
Definition lit (s : string) : str :=
  map N_of_ascii (list_ascii_of_string s).

(** [s.substring(a, b)]: the code units from [min a b] up to [max a b],
    both clamped to the length of [s]. *)
Definition substring (s : str) (a b : nat) : str :=
  take (Nat.max a b - Nat.min a b) (drop (Nat.min a b) s).

Definition line_feed : ascii := "010"%char.
Definition space : ascii := " "%char.

(** [s.replace(/\n/g, ' ')]. *)
Definition replace_line_feeds (s : str) : str :=
  map (fun c => if N.eqb c line_feed_unit then space_unit else c) s.

(** Truthiness of a [number]: [0], [-0] and NaN are falsy. *)
Definition truthy (c : number) : bool :=
  match c with
  | S754_zero _ => false
  | S754_nan => false
  | _ => true
  end.

(** [s.includes(needle)]: [needle] occurs in [s] as a contiguous run.
    Strings are held as UTF-8 bytes; on well-formed text an occurrence of
    bytes is an occurrence of code units and conversely. *)
Fixpoint includes (s needle : string) : bool :=
  String.prefix needle s ||
  match s with
  | EmptyString => false
  | String _ s' => includes s' needle
  end.

(** [String(n)] for a natural number: its decimal digits. *)
Definition String_of_nat (n : nat) : string :=
  NilEmpty.string_of_uint (Nat.to_uint n).

(** [c.repeat(n)] for a one-unit string [c]. *)
Fixpoint repeat_unit (c : ascii) (n : nat) : string :=
  match n with
  | O => EmptyString
  | S n' => String c (repeat_unit c n')
  end.

(** [s.padStart(target, c)] for a one-unit pad string [c]. *)
Definition padStart (s : string) (target : nat) (c : ascii) : string :=
  String.append (repeat_unit c (target - String.length s)) s.

(** [arr.join(sep)]. *)
Definition join (sep : string) (arr : list string) : string :=
  String.concat sep arr.

End JS.

(* ===================================================================== *)
(** ** FE/src/components/ProcessingLogs.tsx *)
(* ===================================================================== *)

Module ProcessingLogs.

Import JS.

Record Strategy := {
  name : string;
  confidence : number;
  details : string
}.

Record SelectedStrategy := {
  selected_name : string;
  selected_confidence : number
}.

Record PageMapping := {
  original : list nat;
  final : list nat
}.

(** [metadata]: every field is optional. *)
Record Metadata := {
  original_filename : option string;
  page_count : option nat;
  initial_order : option (list nat);
  final_order : option (list nat);
  confidences : option (list number);
  summaries : option (gmap nat str)
}.

Record ProcessingResult := {
  strategies : list Strategy;
  selectedStrategy : SelectedStrategy;
  pageMapping : PageMapping;
  reasoning : option string;
  metadata : option Metadata
}.

(** [metadata?.confidences]. *)
Definition metadata_confidences (result : ProcessingResult) : option (list number) :=
  match metadata result with
  | Some m => confidences m
  | None => None
  end.

(** Text colour classes. *)
Inductive Color := Green | Yellow | Red.

Definition getConfidenceColor (conf : number) : Color :=
  if ge conf lit_0_8 then Green
  else if ge conf lit_0_6 then Yellow
  else Red.

Definition getConfidenceBg (conf : number) : Color :=
  if ge conf lit_0_8 then Green
  else if ge conf lit_0_6 then Yellow
  else Red.

(** [avgConfidence]: an array, even an empty one, is truthy, so the
    conditional takes its first branch whenever the field is there. *)
Definition avgConfidence (result : ProcessingResult) : number :=
  match metadata_confidences result with
  | Some cs => div (sum cs) (of_nat (length cs))
  | None => selected_confidence (selectedStrategy result)
  end.

(** The three counters of the confidence card. *)
Definition high_count (cs : list number) : nat :=
  length (List.filter (fun c => ge c lit_0_8) cs).

Definition medium_count (cs : list number) : nat :=
  length (List.filter (fun c => ge c lit_0_6 && lt c lit_0_8) cs).

Definition low_count (cs : list number) : nat :=
  length (List.filter (fun c => lt c lit_0_6) cs).

(** The three filter predicates side by side, and the entries none of
    them can hold. *)
Definition bucket_tests (c : number) : bool * bool * bool :=
  (ge c lit_0_8, ge c lit_0_6 && lt c lit_0_8, lt c lit_0_6).

Definition nan_count (cs : list number) : nat :=
  length (List.filter is_nan cs).

(** What a JSX expression of type [number | string] puts on the page. *)
Inductive Shown :=
  | ShownPage (p : nat)
  | ShownText (s : string).

(** [v || 'End'] for an optional page index [v]. *)
Definition or_End (v : option nat) : Shown :=
  match v with
  | Some p => if truthy_index p then ShownPage p else ShownText "End"
  | None => ShownText "End"
  end.

(** [metadata.final_order?.[i]]. *)
Definition final_order_at (m : Metadata) (i : nat) : option nat :=
  match final_order m with
  | Some fo => fo !! i
  | None => None
  end.

(** One row of the transition list. *)
Record TransitionRow := {
  row_from : option nat;
  row_to : Shown;
  row_conf : number;
  row_bg : Color;
  row_color : Color
}.

Definition transition_row (m : Metadata) (idx : nat) (conf : number) : TransitionRow :=
  {| row_from := final_order_at m idx;
     row_to := or_End (final_order_at m (idx + 1));
     row_conf := conf;
     row_bg := getConfidenceBg conf;
     row_color := getConfidenceColor conf |}.

(** [metadata.confidences.slice(0, 10).map((conf, idx) => ...)]. *)
Definition transition_rows (m : Metadata) (cs : list number) : list TransitionRow :=
  imap (transition_row m) (take 10 cs).

(** The confidence card, drawn when [metadata?.confidences] is there. *)
Record ConfidenceCard := {
  card_high : nat;
  card_medium : nat;
  card_low : nat;
  card_rows : list TransitionRow;
  card_more : option nat
}.

Definition confidence_card (m : Metadata) : option ConfidenceCard :=
  match confidences m with
  | Some cs =>
      Some {| card_high := high_count cs;
              card_medium := medium_count cs;
              card_low := low_count cs;
              card_rows := transition_rows m cs;
              card_more := if 10 <? length cs then Some (length cs) else None |}
  | None => None
  end.

(** One entry of the content preview.  [entry_text] is [None] when the
    optional chain on [summaries[pageIdx]] stops at [undefined]. *)
Record PreviewEntry := {
  entry_position : nat;
  entry_page : nat;
  entry_text : option str;
  entry_ellipsis : str
}.

Definition preview_text (sm : gmap nat str) (pageIdx : nat) : option str :=
  match sm !! pageIdx with
  | Some s => Some (replace_line_feeds (substring s 0 150))
  | None => None
  end.

Definition preview_ellipsis (sm : gmap nat str) (pageIdx : nat) : str :=
  match sm !! pageIdx with
  | Some s => if 150 <? length s then lit "..." else []
  | None => []
  end.

Definition preview_entry (sm : gmap nat str) (position pageIdx : nat) : PreviewEntry :=
  {| entry_position := position;
     entry_page := pageIdx;
     entry_text := preview_text sm pageIdx;
     entry_ellipsis := preview_ellipsis sm pageIdx |}.

(** [metadata.final_order?.slice(0, 8).map((pageIdx, position) => ...)],
    inside the card drawn when [metadata?.summaries] is there. *)
Definition preview_entries (m : Metadata) : option (list PreviewEntry) :=
  match summaries m with
  | Some sm =>
      match final_order m with
      | Some fo => Some (imap (preview_entry sm) (take 8 fo))
      | None => Some []
      end
  | None => None
  end.

(** The text a preview entry puts on the page: excerpt, then ellipsis. *)
Definition entry_shown (e : PreviewEntry) : str :=
  match entry_text e with
  | Some t => t ++ entry_ellipsis e
  | None => entry_ellipsis e
  end.

(** The [expandedSections] state and its toggle. *)
Record ExpandedSections := {
  ordering : bool;
  confidence_open : bool;
  preview : bool
}.

Definition expandedSections_initial : ExpandedSections :=
  {| ordering := true; confidence_open := true; preview := true |}.

Inductive SectionKey := OrderingSection | ConfidenceSection | PreviewSection.

Definition toggleSection (section : SectionKey) (prev : ExpandedSections) : ExpandedSections :=
  match section with
  | OrderingSection =>
      {| ordering := negb (ordering prev);
         confidence_open := confidence_open prev; preview := preview prev |}
  | ConfidenceSection =>
      {| ordering := ordering prev;
         confidence_open := negb (confidence_open prev); preview := preview prev |}
  | PreviewSection =>
      {| ordering := ordering prev;
         confidence_open := confidence_open prev; preview := negb (preview prev) |}
  end.

(** The summary card: [metadata?.page_count || pageMapping.final.length],
    and the average with its colour. *)
Record SummaryCard := {
  total_pages : nat;
  avg_confidence : number;
  avg_color : Color
}.

Definition summary_card (result : ProcessingResult) : SummaryCard :=
  {| total_pages :=
       match metadata result with
       | Some m =>
           match page_count m with
           | Some n => if truthy_index n then n else length (final (pageMapping result))
           | None => length (final (pageMapping result))
           end
       | None => length (final (pageMapping result))
       end;
     avg_confidence := avgConfidence result;
     avg_color := getConfidenceColor (avgConfidence result) |}.

(** The ordering card: the first 15 entries of each order, and whether
    more follow. *)
Record OrderingCard := {
  initial_shown : list nat;
  initial_more : bool;
  final_shown : list nat;
  final_more : bool
}.

Definition ordering_card (result : ProcessingResult) : OrderingCard :=
  let initial :=
    match metadata result with
    | Some m => match initial_order m with
                | Some l => l
                | None => original (pageMapping result)
                end
    | None => original (pageMapping result)
    end in
  let final_ :=
    match metadata result with
    | Some m => match final_order m with
                | Some l => l
                | None => final (pageMapping result)
                end
    | None => final (pageMapping result)
    end in
  {| initial_shown := take 15 initial;
     initial_more := 15 <? length initial;
     final_shown := take 15 final_;
     final_more := 15 <? length final_ |}.

(** What the component returns.  Each collapsible card comes with its
    [open] flag. *)
Inductive View :=
  | ProcessingView
  | WaitingView
  | CompleteView (summary : SummaryCard)
                 (order_card : bool * OrderingCard)
                 (conf_card : option (bool * ConfidenceCard))
                 (preview_card : option (bool * list PreviewEntry)).

Definition render (result : option ProcessingResult) (isProcessing : bool)
  (st : ExpandedSections) : View :=
  if isProcessing then ProcessingView
  else match result with
       | None => WaitingView
       | Some r =>
           CompleteView
             (summary_card r)
             (ordering st, ordering_card r)
             (match metadata r with
              | Some m => option_map (pair (confidence_open st)) (confidence_card m)
              | None => None
              end)
             (match metadata r with
              | Some m => option_map (pair (preview st)) (preview_entries m)
              | None => None
              end)
       end.

(** The slot after "Original page ..." in a preview entry:
    [metadata.confidences?.[position] && <Badge .../>].  The conjunction
    yields [undefined] when the entry is missing, the number itself when
    it is falsy, and the badge otherwise. *)
Inductive BadgeSlot :=
  | SlotUndefined
  | SlotNumber (c : number)
  | SlotBadge (color : Color) (c : number).

Definition preview_badge (m : Metadata) (position : nat) : BadgeSlot :=
  match confidences m with
  | Some cs =>
      match cs !! position with
      | Some c => if truthy c then SlotBadge (getConfidenceColor c) c else SlotNumber c
      | None => SlotUndefined
      end
  | None => SlotUndefined
  end.

(** How many entries of a list are drawn in a given colour. *)
Definition Color_eqb (a b : Color) : bool :=
  match a, b with
  | Green, Green | Yellow, Yellow | Red, Red => true
  | _, _ => false
  end.

Definition colour_count (k : Color) (cs : list number) : nat :=
  length (List.filter (fun c => Color_eqb (getConfidenceColor c) k) cs).

(** [metadata?.initial_order || result.pageMapping.original] and
    [metadata?.final_order || result.pageMapping.final]: an array, even an
    empty one, is truthy. *)
Definition initial_source (result : ProcessingResult) : list nat :=
  match metadata result with
  | Some m => match initial_order m with
              | Some l => l
              | None => original (pageMapping result)
              end
  | None => original (pageMapping result)
  end.

Definition final_source (result : ProcessingResult) : list nat :=
  match metadata result with
  | Some m => match final_order m with
              | Some l => l
              | None => final (pageMapping result)
              end
  | None => final (pageMapping result)
  end.

End ProcessingLogs.

(* ===================================================================== *)
(** ** FE/src/components/PDFViewer.tsx *)
(* ===================================================================== *)

Module PDFViewer.

Local Open Scope Z_scope.

(** The two [useState] cells of the component. *)
Record State := {
  numPages : Z;
  pageNumber : Z
}.

Definition initial : State := {| numPages := 0; pageNumber := 1 |}.

Definition onDocumentLoadSuccess (n : Z) (s : State) : State :=
  {| numPages := n; pageNumber := 1 |}.

Definition goToPrevPage (s : State) : State :=
  {| numPages := numPages s; pageNumber := Z.max (pageNumber s - 1) 1 |}.

Definition goToNextPage (s : State) : State :=
  {| numPages := numPages s; pageNumber := Z.min (pageNumber s + 1) (numPages s) |}.

(** The navigation bar is drawn under [numPages > 0]; each button carries
    a [disabled] attribute. *)
Definition controls_rendered (s : State) : bool := 0 <? numPages s.
Definition prev_disabled (s : State) : bool := pageNumber s <=? 1.
Definition next_disabled (s : State) : bool := numPages s <=? pageNumber s.

(** What can happen to a mounted viewer: the document (re)loads with [n]
    pages, or the user presses one of the two buttons.  A press reaches its
    handler only when the button is on the page and enabled. *)
Inductive Event :=
  | Load (n : Z)
  | PressPrev
  | PressNext.

Definition step (s : State) (e : Event) : State :=
  match e with
  | Load n => onDocumentLoadSuccess n s
  | PressPrev =>
      if controls_rendered s && negb (prev_disabled s) then goToPrevPage s else s
  | PressNext =>
      if controls_rendered s && negb (next_disabled s) then goToNextPage s else s
  end.

Definition run (s : State) (es : list Event) : State := fold_left step es s.

Definition page_in_range (s : State) : Prop :=
  1 <= pageNumber s <= Z.max (numPages s) 1.

End PDFViewer.

(* ===================================================================== *)
(** ** The page-order decision engine *)
(* ===================================================================== *)

Module Engine.

(** Modelled from the spec: the content model of section 3.  The Python
    classes of [BE/services] are missing from the tree. *)
Inductive Source := extracted | ocr.

(** Modelled from the spec: [PageContent] of section 3; [length] is
    derived from [text]. *)
Record PageContent := {
  original_index : nat;
  text : string;
  source : Source
}.

(** Modelled from the spec: the six strategies of the table in section
    4.3 ([BE/services/strategies.py] is missing). *)
Inductive StrategyId :=
  | PageNumber
  | BusinessLogic
  | StructuralPattern
  | DateSequence
  | SemanticSimilarity
  | LLMReasoning.

(** Modelled from the spec: the [method] field of a result, a strategy
    identifier or the terminal fallback of section 4.4, step 4. *)
Inductive Method :=
  | ByStrategy (s : StrategyId)
  | TerminalFallback.

(** Modelled from the spec: [OrderingResult] of section 3; the missing
    class is [OrderingResult] of [BE/services/strategies.py].  Confidences
    are rationals. *)
Record OrderingResult := {
  order : list nat;
  confidence : Q;
  reasoning : list string;
  method : Method
}.

(** Modelled from the spec: the common contract of section 4.3,
    [attempt(pages) -> OrderingResult | abstain]; [None] is abstention. *)
Definition Strategy : Type := list PageContent -> option OrderingResult.

(** Modelled from the spec: the priority order of section 4.4, step 1,
    which is also the ranking that breaks ties in step 3. *)
Definition priority_order : list StrategyId :=
  [PageNumber; BusinessLogic; StructuralPattern; DateSequence;
   SemanticSimilarity; LLMReasoning].

(** Modelled from the spec: the position of a strategy in that order,
    Page-Number first and LLM-Reasoning last. *)
Definition rank (s : StrategyId) : nat :=
  match s with
  | PageNumber => 0
  | BusinessLogic => 1
  | StructuralPattern => 2
  | DateSequence => 3
  | SemanticSimilarity => 4
  | LLMReasoning => 5
  end.

(** Modelled from the spec: the permutation invariant, "exactly N entries,
    each original index exactly once". *)
Definition is_permutation (N : nat) (l : list nat) : bool :=
  (length l =? N) && forallb (fun i => count_occ Nat.eq_dec l i =? 1) (seq 0 N).

(** Modelled from the spec: section 5 allows sequential evaluation with an
    early exit at a high-confidence cutoff, or evaluation of every strategy
    followed by selection. *)
Inductive Evaluation :=
  | EarlyExit (cutoff : Q)
  | RunAll.

(** Modelled from the spec: "a result clears a high-confidence cutoff"
    (section 4.4, step 1). *)
Definition clears (ev : Evaluation) (r : OrderingResult) : bool :=
  match ev with
  | EarlyExit cutoff => Qle_bool cutoff (confidence r)
  | RunAll => false
  end.

(** Modelled from the spec: what the orchestrator of section 4.4 is run
    with.  The six strategies (their Python code is missing, so they are
    arbitrary functions here), the evaluation policy, the per-transition
    detail a strategy may supply (step 6), and the excerpt taken of a
    page's text. *)
Record Config := {
  library : StrategyId -> Strategy;
  evaluation : Evaluation;
  transition_detail : StrategyId -> list PageContent -> option (nat -> nat -> Q);
  excerpt : string -> string
}.

(** Modelled from the spec: section 4.4, step 5.  A result that is not a
    permutation of [0, N) counts as an abstention. *)
Definition attempt (cfg : Config) (pages : list PageContent) (s : StrategyId)
  : option OrderingResult :=
  match library cfg s pages with
  | Some r => if is_permutation (length pages) (order r) then Some r else None
  | None => None
  end.

(** Modelled from the spec: section 4.4, steps 1 and 2.  Strategies run in
    priority order; a result that clears the cutoff ends the run. *)
Fixpoint collect (cfg : Config) (pages : list PageContent) (ss : list StrategyId)
  : list (StrategyId * OrderingResult) :=
  match ss with
  | [] => []
  | s :: rest =>
      match attempt cfg pages s with
      | Some r =>
          (s, r) :: (if clears (evaluation cfg) r then [] else collect cfg pages rest)
      | None => collect cfg pages rest
      end
  end.

(** Modelled from the spec: section 4.4, step 3.  [beats a b]: [a] has the
    higher confidence, or the same confidence and the higher priority. *)
Definition beats (a b : StrategyId * OrderingResult) : bool :=
  match (confidence (snd a) ?= confidence (snd b))%Q with
  | Gt => true
  | Eq => rank (fst a) <? rank (fst b)
  | Lt => false
  end.

(** Modelled from the spec: section 4.4, step 3, the selection. *)
Fixpoint select (cs : list (StrategyId * OrderingResult))
  : option (StrategyId * OrderingResult) :=
  match cs with
  | [] => None
  | c :: rest =>
      match select rest with
      | Some d => if beats d c then Some d else Some c
      | None => Some c
      end
  end.

(** Modelled from the spec: section 4.4, step 4, the terminal fallback. *)
Definition fallback (N : nat) : OrderingResult :=
  {| order := seq 0 N;
     confidence := 0;
     reasoning := ["No strategy could decide on an order; the pages keep their original order"%string];
     method := TerminalFallback |}.

(** Modelled from the spec: section 4.4, step 6, the adjacent transitions
    of an order. *)
Definition adjacent (l : list nat) : list (nat * nat) := combine l (tl l).

(** Modelled from the spec: section 4.4, step 6.  Per-transition detail
    where the strategy supplies it, else the aggregate confidence on every
    transition. *)
Definition pairwise (detail : option (nat -> nat -> Q)) (r : OrderingResult) : list Q :=
  match detail with
  | Some f => map (fun ab => f (fst ab) (snd ab)) (adjacent (order r))
  | None => repeat (confidence r) (length (order r) - 1)
  end.

(** Modelled from the spec: section 4.4, step 7; candidates are listed by
    descending confidence. *)
Fixpoint insert_candidate (c : Method * Q) (l : list (Method * Q)) : list (Method * Q) :=
  match l with
  | [] => [c]
  | d :: l' => if Qle_bool (snd d) (snd c) then c :: l else d :: insert_candidate c l'
  end.

(** Modelled from the spec: section 4.4, step 7, the sorted list. *)
Definition by_confidence (l : list (Method * Q)) : list (Method * Q) :=
  fold_right insert_candidate [] l.

(** Modelled from the spec: [ProcessingResult] of section 3. *)
Record ProcessingResult := {
  selected : OrderingResult;
  candidates : list (Method * Q);
  initial_order : list nat;
  final_order : list nat;
  pairwise_confidences : list Q;
  summaries : gmap nat string
}.

(** Modelled from the spec: [summaries] of section 3, from original
    index to excerpt. *)
Definition summarise (cfg : Config) (pages : list PageContent) : gmap nat string :=
  list_to_map (map (fun p => (original_index p, excerpt cfg (text p))) pages).

(** Modelled from the spec: the orchestrator of section 4.4; the missing
    code is [BE/services/ordering_svc.py]. *)
Definition orchestrate (cfg : Config) (pages : list PageContent) : ProcessingResult :=
  let N := length pages in
  let cs := collect cfg pages priority_order in
  let winner :=
    match select cs with
    | Some (s, r) => (r, transition_detail cfg s pages)
    | None => (fallback N, None)
    end in
  {| selected := fst winner;
     candidates := by_confidence (map (fun c => (ByStrategy (fst c), confidence (snd c))) cs);
     initial_order := seq 0 N;
     final_order := order (fst winner);
     pairwise_confidences := pairwise (snd winner) (fst winner);
     summaries := summarise cfg pages |}.

(** Modelled from the spec: the LLM-Reasoning row of section 4.3.  The
    transport answers with a proposed order and a confidence, or fails
    (timeout, error, malformed response). *)
Record ServiceResponse := {
  proposed_order : list nat;
  reported_confidence : Q
}.

(** Modelled from the spec: "confidence reported by the service, clamped
    to [0,1]". *)
Definition clamp01 (q : Q) : Q := Qmax 0 (Qmin 1 q).

(** Modelled from the spec: the LLM-Reasoning strategy.  The proposed
    order is accepted verbatim once it is a permutation of [0, N);
    anything else is an abstention. *)
Definition llm_reasoning (transport : list string -> option ServiceResponse)
  (summary : string -> string) : Strategy :=
  fun pages =>
    match transport (map (fun p => summary (text p)) pages) with
    | Some resp =>
        if is_permutation (length pages) (proposed_order resp)
        then Some {| order := proposed_order resp;
                     confidence := clamp01 (reported_confidence resp);
                     reasoning := ["Order proposed by the reasoning service"%string];
                     method := ByStrategy LLMReasoning |}
        else None
    | None => None
    end.

End Engine.

(* ===================================================================== *)
(** ** FE/src/components/TerminalLogs.tsx *)
(* ===================================================================== *)

Module TerminalLogs.

Import JS.

(** The text colour classes [getLogColor] chooses from. *)
Inductive LogColor :=
  | text_green_400
  | text_red_400
  | text_yellow_400
  | text_cyan_400
  | text_purple_400
  | text_blue_400
  | text_gray_300.

Definition getLogColor (log : string) : LogColor :=
  if includes log "✓" || includes log "✅" || includes log "Success"
     || includes log "complete"
  then text_green_400
  else if includes log "❌" || includes log "Error" || includes log "failed"
  then text_red_400
  else if includes log "⚠️" || includes log "Warning" || includes log "skipped"
  then text_yellow_400
  else if includes log "Strategy" || includes log "confidence"
  then text_cyan_400
  else if includes log "Found page number" || includes log "Detected"
  then text_purple_400
  else if includes log "Testing" || includes log "Extracting" || includes log "Rebuilding"
  then text_blue_400
  else text_gray_300.

(** [handleCopy]: the text written to the clipboard. *)
Definition handleCopy (logs : list string) : string :=
  join (String line_feed EmptyString) logs.

Definition copy_disabled (logs : list string) : bool := length logs =? 0.

(** [String(index + 1).padStart(3, '0')]. *)
Definition line_label (index : nat) : string :=
  padStart (String_of_nat (index + 1)) 3 "0"%char.

(** One drawn log line. *)
Record LogLine := {
  line_color : LogColor;
  line_number : string;
  line_text : string
}.

Definition log_line (index : nat) (log : string) : LogLine :=
  {| line_color := getLogColor log;
     line_number := line_label index;
     line_text := log |}.

(** The body of the terminal: a placeholder when there is no log, else
    one line per log and, while processing, a trailing indicator. *)
Inductive Body :=
  | PlaceholderProcessing
  | PlaceholderIdle
  | Lines (lines : list LogLine) (indicator : bool).

Definition body (logs : list string) (isProcessing : bool) : Body :=
  if length logs =? 0
  then (if isProcessing then PlaceholderProcessing else PlaceholderIdle)
  else Lines (imap log_line logs) (isProcessing && (0 <? length logs)).

(** The footer with the auto-scroll box and the line count. *)
Definition footer (logs : list string) : option nat :=
  if 10 <? length logs then Some (length logs) else None.

End TerminalLogs.

(* ===================================================================== *)
(** ** The upload page [Index] of src/unnamed/part_001 *)
(* ===================================================================== *)

(** The source tree holds the page twice.  [src/unnamed/part_001] is the
    one embedded here: it keeps the backend logs and draws
    [TerminalLogs].  [FE/src/pages/Index.tsx] is the same page without
    the [backendLogs] cell and without the terminal. *)
Module Index.

(** A [File], as far as the page looks at it. *)
Record File := {
  file_name : string
}.

(** The [useState] cells of the page.  [progress] is the percentage the
    upload callback last computed. *)
Record State := {
  file : option File;
  loading : bool;
  progress : nat;
  error : option string;
  originalPdfUrl : option string;
  reconstructedPdfUrl : option string;
  backendLogs : list string
}.

Definition initial : State :=
  {| file := None; loading := false; progress := 0; error := None;
     originalPdfUrl := None; reconstructedPdfUrl := None; backendLogs := [] |}.

(** [handleFileChange].  [selected] is [e.target.files?.[0]] together with
    the object URL [URL.createObjectURL] makes for it. *)
Definition handleFileChange (selected : option (File * string)) (s : State) : State :=
  {| file := option_map fst selected;
     loading := loading s;
     progress := progress s;
     error := None;
     originalPdfUrl := option_map snd selected;
     reconstructedPdfUrl := None;
     backendLogs := [] |}.

Definition select_first : string := "Please select a PDF file first.".
Definition errorMsg : string :=
  "Upload failed. Please check the backend connection or file format.".
Definition starting : string := "🚀 Starting PDF reconstruction...".
Definition uploading (f : File) : string :=
  String.append "📄 Uploading file: " (file_name f).
Definition received : string := "📡 Received backend logs:".
Definition not_parsed : string := "⚠️ Could not parse backend logs".
Definition completed : string := "✅ PDF reconstruction complete!".
Definition failed (msg : string) : string := String.append "❌ " msg.

(** [handleUpload] up to the [await]: without a file it only sets the
    error; with one it resets the page and logs the start. *)
Definition handleUpload_start (s : State) : State :=
  match file s with
  | None =>
      {| file := file s; loading := loading s; progress := progress s;
         error := Some select_first;
         originalPdfUrl := originalPdfUrl s;
         reconstructedPdfUrl := reconstructedPdfUrl s;
         backendLogs := backendLogs s |}
  | Some f =>
      {| file := file s; loading := true; progress := 0;
         error := None;
         originalPdfUrl := originalPdfUrl s;
         reconstructedPdfUrl := None;
         backendLogs := [starting; uploading f] |}
  end.

(** [onUploadProgress], with the percentage already computed; an event
    without a total changes nothing. *)
Definition onUploadProgress (percent : option nat) (s : State) : State :=
  match percent with
  | Some p =>
      {| file := file s; loading := loading s; progress := p; error := error s;
         originalPdfUrl := originalPdfUrl s;
         reconstructedPdfUrl := reconstructedPdfUrl s;
         backendLogs := backendLogs s |}
  | None => s
  end.

(** The [x-backend-logs] header of a response.
    - [NoHeader]: absent or empty.
    - [Decoded lines]: it decodes to an array of strings (a JSON string,
      which the spread takes apart into its characters, is one too).
    - [Malformed]: [decodeURIComponent] or [JSON.parse] throws, inside
      the inner [try].
    - [Unrenderable]: it decodes to a value the page cannot draw: one
      that is not iterable (a number, a boolean, [null], an object), on
      which the spread inside the updater throws, or an array with an
      entry that is a number, a boolean, [null] or an object, on which
      [log.includes] throws in [getLogColor].  Both happen while React
      renders, outside every [try] block.
    An array that holds arrays is not covered. *)
Inductive LogsHeader :=
  | NoHeader
  | Decoded (lines : list string)
  | Malformed
  | Unrenderable.

(** How the request ends: a response, with the object URL made for its
    body, or a rejection of the awaited [axios.post] (network error,
    error status), which takes the [catch] branch. *)
Inductive Outcome :=
  | Resolved (header : LogsHeader) (url : string)
  | Rejected.

(** [handleUpload] from the [await] on, [finally] included: the state
    React renders next, or [None] when that render throws. *)
Definition handleUpload_settle (o : Outcome) (s : State) : option State :=
  match o with
  | Resolved Unrenderable _ => None
  | Resolved header url =>
      Some
        {| file := file s; loading := false; progress := 0; error := error s;
           originalPdfUrl := originalPdfUrl s;
           reconstructedPdfUrl := Some url;
           backendLogs :=
             (backendLogs s ++
                match header with
                | Decoded lines => received :: lines
                | Malformed => [not_parsed]
                | _ => []
                end) ++ [completed] |}
  | Rejected =>
      Some
        {| file := file s; loading := false; progress := 0;
           error := Some errorMsg;
           originalPdfUrl := originalPdfUrl s;
           reconstructedPdfUrl := reconstructedPdfUrl s;
           backendLogs := backendLogs s ++ [failed errorMsg] |}
  end.

(** [disabled={loading || !file}] on the upload button. *)
Definition upload_disabled (s : State) : bool :=
  loading s || negb (bool_decide (is_Some (file s))).

(** The terminal is drawn under [backendLogs.length > 0], with
    [isProcessing = loading]. *)
Definition terminal (s : State) : option TerminalLogs.Body :=
  if 0 <? length (backendLogs s)
  then Some (TerminalLogs.body (backendLogs s) (loading s))
  else None.

(** The page together with its surroundings: [inflight] tells whether a
    call of [handleUpload] is waiting at its [await]; [mounted] whether
    React still holds the page.  An error thrown while rendering, with no
    error boundary around, makes React remove the whole tree: nothing is
    drawn any more and no handler can run.  The cells are then gone;
    [page] holds their initial values. *)
Record World := {
  page : State;
  inflight : bool;
  mounted : bool
}.

Definition start : World := {| page := initial; inflight := false; mounted := true |}.

Definition unmounted : World := {| page := initial; inflight := false; mounted := false |}.

(** What can happen: the user picks a file (or none), presses the upload
    button, the pending request reports progress, or it ends.  A press
    reaches [handleUpload] only when the button is enabled. *)
Inductive Event :=
  | SelectFile (selected : option (File * string))
  | PressUpload
  | UploadProgress (percent : option nat)
  | Settle (o : Outcome).

Definition step (w : World) (e : Event) : World :=
  if negb (mounted w) then w
  else
    match e with
    | SelectFile selected =>
        {| page := handleFileChange selected (page w);
           inflight := inflight w; mounted := true |}
    | PressUpload =>
        if upload_disabled (page w) then w
        else {| page := handleUpload_start (page w);
                inflight := bool_decide (is_Some (file (page w)));
                mounted := true |}
    | UploadProgress percent =>
        if inflight w
        then {| page := onUploadProgress percent (page w);
                inflight := true; mounted := true |}
        else w
    | Settle o =>
        if inflight w
        then match handleUpload_settle o (page w) with
             | Some s => {| page := s; inflight := false; mounted := true |}
             | None => unmounted
             end
        else w
    end.

Definition run (w : World) (es : list Event) : World := fold_left step es w.

(** What the page keeps true: a request is pending exactly while
    [loading] is set; while it is, neither an error nor a result is
    held; an error is the upload failure, excludes a result and is the
    last log line; a result has the completion message as last log
    line; a page React has removed holds nothing. *)
Definition consistent (w : World) : Prop :=
  inflight w = loading (page w) /\
  (loading (page w) = true ->
     error (page w) = None /\ reconstructedPdfUrl (page w) = None) /\
  (error (page w) = None \/
     (error (page w) = Some errorMsg /\ reconstructedPdfUrl (page w) = None /\
      last (backendLogs (page w)) = Some (failed errorMsg))) /\
  (reconstructedPdfUrl (page w) = None \/
     last (backendLogs (page w)) = Some completed) /\
  (mounted w = false -> w = unmounted).

End Index.

(* ===================================================================== *)
(** ** Sample data *)
(* ===================================================================== *)

Module Samples.

Import JS ProcessingLogs.

(** The doubles read from [0.9], [0.7] and [0.3]. *)
Definition c_0_9 : number := S754_finite false 8106479329266893 (-53).
Definition c_0_7 : number := S754_finite false 6305039478318694 (-53).
Definition c_0_3 : number := S754_finite false 5404319552844595 (-54).

Definition three_confidences : list number := [c_0_9; c_0_7; c_0_3].

(** Metadata as the backend sends it for a document whose pages come out
    in the order [fo]. *)
Definition meta (fo : list nat) (cs : option (list number))
  (sm : option (gmap nat str)) : Metadata :=
  {| original_filename := Some "shuffled.pdf"%string;
     page_count := Some (length fo);
     initial_order := Some (seq 0 (length fo));
     final_order := Some fo;
     confidences := cs;
     summaries := sm |}.

Definition result (m : option Metadata) : ProcessingResult :=
  {| strategies := [];
     selectedStrategy :=
       {| selected_name := "page_number"%string; selected_confidence := c_0_9 |};
     pageMapping := {| original := []; final := [] |};
     reasoning := None;
     metadata := m |}.

(** A single page: no transition, so [confidences] is the empty array. *)
Definition single_page : ProcessingResult := result (Some (meta [0] (Some []) None)).

(** The same document, sent without the [confidences] field. *)
Definition no_confidences : ProcessingResult := result (Some (meta [0] None None)).

(** Two pages, swapped. *)
Definition swapped : Metadata := meta [1; 0] (Some [c_0_9]) None.

(** Three pages; page 0 comes second. *)
Definition zero_second : Metadata := meta [1; 0; 2] (Some [c_0_9; c_0_7]) None.

(** Three pages with their excerpts; position 0 holds page 2. *)
Definition excerpts : gmap nat str :=
  <[0 := lit "LOAN AGREEMENT"]>
    (<[1 := lit "Signature"]> (<[2 := lit "ARTICLE - I"]> ∅)).

Definition with_excerpts : Metadata := meta [2; 0; 1] None (Some excerpts).

(** An excerpt of 160 code units with a line feed after its first word. *)
Definition long_excerpt : str :=
  lit "Page" ++ line_feed_unit :: repeat 120%N 155.

Definition with_long_excerpt : Metadata :=
  meta [1; 0] None (Some (<[1 := long_excerpt]> excerpts)).

(** Excerpts outside ASCII: 60 and 151 rupee signs (U+20B9, one code unit
    each, three bytes each in UTF-8), and 150 code units followed by a
    character outside the basic plane (U+1F4C4, the surrogates D83D
    DCC4). *)
Definition rupee : code_unit := 8377%N.

Definition non_ascii_excerpts : gmap nat str :=
  <[0 := repeat rupee 60]>
    (<[1 := repeat rupee 151]>
       (<[2 := repeat 120%N 149 ++ [55357%N; 56516%N]]> ∅)).

Definition with_non_ascii_excerpts : Metadata :=
  meta [0; 1; 2] None (Some non_ascii_excerpts).

(** Three pages as they arrive, and a few strategy libraries. *)
Definition page (i : nat) (t : string) : Engine.PageContent :=
  {| Engine.original_index := i; Engine.text := t; Engine.source := Engine.extracted |}.

Definition three_pages : list Engine.PageContent :=
  [page 0 "Signature"; page 1 "LOAN AGREEMENT"; page 2 "ARTICLE - I"].

Definition answer (s : Engine.StrategyId) (o : list nat) (c : Q) : Engine.OrderingResult :=
  {| Engine.order := o;
     Engine.confidence := c;
     Engine.reasoning := ["Ordered by the signal of the strategy"%string];
     Engine.method := Engine.ByStrategy s |}.

(** No strategy finds a signal. *)
Definition silent : Engine.StrategyId -> Engine.Strategy := fun _ _ => None.

(** Page-Number and Structural-Pattern both report 0.90. *)
Definition tied : Engine.StrategyId -> Engine.Strategy :=
  fun s _ =>
    match s with
    | Engine.PageNumber => Some (answer Engine.PageNumber [1; 2; 0] (9 # 10))
    | Engine.StructuralPattern => Some (answer Engine.StructuralPattern [1; 0; 2] (9 # 10))
    | _ => None
    end.

(** Business-Logic reports 0.91 and Date-Sequence 0.93. *)
Definition close_call : Engine.StrategyId -> Engine.Strategy :=
  fun s _ =>
    match s with
    | Engine.BusinessLogic => Some (answer Engine.BusinessLogic [1; 2; 0] (91 # 100))
    | Engine.DateSequence => Some (answer Engine.DateSequence [2; 1; 0] (93 # 100))
    | _ => None
    end.

(** Page-Number returns a page twice; Date-Sequence reports 0.70. *)
Definition one_broken : Engine.StrategyId -> Engine.Strategy :=
  fun s _ =>
    match s with
    | Engine.PageNumber => Some (answer Engine.PageNumber [0; 0; 1] (95 # 100))
    | Engine.DateSequence => Some (answer Engine.DateSequence [1; 2; 0] (7 # 10))
    | _ => None
    end.

(** Structural-Pattern reports 1.5. *)
Definition over_confident : Engine.StrategyId -> Engine.Strategy :=
  fun s _ =>
    match s with
    | Engine.StructuralPattern => Some (answer Engine.StructuralPattern [0; 1; 2] (3 # 2))
    | _ => None
    end.

Definition config (lib : Engine.StrategyId -> Engine.Strategy)
  (ev : Engine.Evaluation) : Engine.Config :=
  {| Engine.library := lib;
     Engine.evaluation := ev;
     Engine.transition_detail := fun _ _ => None;
     Engine.excerpt := String.substring 0 200 |}.

(** A reasoning service that answers with an order and an over-confident
    number. *)
Definition eager_service : list string -> option Engine.ServiceResponse :=
  fun _ => Some {| Engine.proposed_order := [1; 2; 0];
                   Engine.reported_confidence := 12 # 10 |}.

End Samples.

(* ===================================================================== *)
(** ** Comparison of numbers *)
(* ===================================================================== *)

Section NumberOrder.

Import JS ProcessingLogs.

(** Swapping the operands of a comparison flips its outcome. *)
Lemma SFcompare_swap (a b : number) :
  SFcompare a b = option_map CompOpp (SFcompare b a).
Proof.
  destruct a as [sa|sa| |sa ma ea], b as [sb|sb| |sb mb eb];
    try destruct sa; try destruct sb; try reflexivity; simpl.
  - rewrite (Z.compare_antisym ea eb).
    destruct (ea ?= eb)%Z; simpl; try reflexivity.
    rewrite !Pos.compare_cont_spec, (Pos.compare_antisym ma mb); simpl.
    now destruct (ma ?= mb)%positive.
  - rewrite (Z.compare_antisym ea eb).
    destruct (ea ?= eb)%Z; simpl; try reflexivity.
    rewrite !Pos.compare_cont_spec, (Pos.compare_antisym ma mb); simpl.
    now destruct (ma ?= mb)%positive.
Qed.

(** Away from NaN, [a >= b] is the negation of [a < b]. *)
Lemma ge_not_lt (a b : number) :
  is_nan a = false -> is_nan b = false -> ge a b = negb (lt a b).
Proof.
  intros Ha Hb. unfold ge, lt, SFleb, SFltb.
  rewrite (SFcompare_swap b a).
  destruct (SFcompare a b) as [[ | | ]|] eqn:E; simpl; try reflexivity.
  destruct a, b; simpl in *; discriminate.
Qed.

(** Below [0.6] is below [0.8]. *)
Lemma lt_0_6_lt_0_8 (c : number) : lt c lit_0_6 = true -> lt c lit_0_8 = true.
Proof.
  unfold lt, SFltb, lit_0_6, lit_0_8.
  destruct c as [s|s| |s m e].
  - intros _. reflexivity.
  - destruct s; intros H; [reflexivity | exact H].
  - intros H; exact H.
  - destruct s; [intros _; reflexivity|].
    unfold SFcompare.
    destruct (e ?= -53)%Z; [ | intros _; reflexivity | intros H; exact H].
    rewrite !Pos.compare_cont_spec. unfold Pos.switch_Eq.
    destruct (m ?= 5404319552844595)%positive eqn:E6;
      [intros H; discriminate H| |intros H; discriminate H].
    intros _.
    assert (E8 : (m ?= 7205759403792794)%positive = Lt).
    { apply Pos.compare_lt_iff. apply Pos.compare_lt_iff in E6.
      eapply Pos.lt_trans; [exact E6|]. vm_compute. reflexivity. }
    now rewrite E8.
Qed.

(** Every number other than NaN satisfies exactly one of the three tests
    of the histogram; NaN satisfies none. *)
Lemma bucket_tests_number (c : number) :
  is_nan c = false ->
  bucket_tests c = (true, false, false) \/
  bucket_tests c = (false, true, false) \/
  bucket_tests c = (false, false, true).
Proof.
  intros Hc. unfold bucket_tests.
  rewrite (ge_not_lt c lit_0_8 Hc eq_refl), (ge_not_lt c lit_0_6 Hc eq_refl).
  pose proof (lt_0_6_lt_0_8 c) as Hmono.
  destruct (lt c lit_0_6); destruct (lt c lit_0_8); cbn; auto.
  specialize (Hmono eq_refl). discriminate Hmono.
Qed.

Lemma bucket_tests_NaN : bucket_tests NaN = (false, false, false).
Proof. reflexivity. Qed.

End NumberOrder.

(* ===================================================================== *)
(** ** ProcessingLogs: the confidence histogram *)
(* ===================================================================== *)

Section Histogram.

Import JS ProcessingLogs.

Lemma counts_cons (c : number) (cs : list number) :
  high_count (c :: cs) = (if fst (fst (bucket_tests c)) then 1 else 0) + high_count cs /\
  medium_count (c :: cs) = (if snd (fst (bucket_tests c)) then 1 else 0) + medium_count cs /\
  low_count (c :: cs) = (if snd (bucket_tests c) then 1 else 0) + low_count cs /\
  nan_count (c :: cs) = (if is_nan c then 1 else 0) + nan_count cs.
Proof.
  unfold high_count, medium_count, low_count, nan_count, bucket_tests; cbn.
  repeat split.
  - now destruct (ge c lit_0_8).
  - now destruct (ge c lit_0_6 && lt c lit_0_8).
  - now destruct (lt c lit_0_6).
  - now destruct (is_nan c).
Qed.

(** The three counters miss exactly the NaN entries. *)
Lemma histogram_counts (cs : list number) :
  high_count cs + medium_count cs + low_count cs + nan_count cs = length cs.
Proof.
  induction cs as [|c cs IH]; [reflexivity|].
  destruct (counts_cons c cs) as (Hh & Hm & Hl & Hn).
  rewrite Hh, Hm, Hl, Hn; clear Hh Hm Hl Hn. cbn [length].
  destruct (is_nan c) eqn:Hc.
  - destruct c; try discriminate Hc. fold NaN. rewrite bucket_tests_NaN. cbn. lia.
  - destruct (bucket_tests_number c Hc) as [E|[E|E]]; rewrite E; cbn; lia.
Qed.

Lemma nan_count_0 (cs : list number) :
  Forall (fun c => is_nan c = false) cs -> nan_count cs = 0.
Proof.
  unfold nan_count. induction 1 as [|c cs Hc _ IH]; [reflexivity|].
  cbn. now rewrite Hc.
Qed.

(** C6, as amended.  The three counters of the confidence card, high
    ([c >= 0.8]), medium ([c >= 0.6 && c < 0.8]) and low ([c < 0.6]), add
    up to the length of the confidences list whenever no entry is NaN. *)
Theorem histogram_partition (cs : list number) :
  Forall (fun c => is_nan c = false) cs ->
  high_count cs + medium_count cs + low_count cs = length cs.
Proof.
  intros H. pose proof (histogram_counts cs) as E.
  rewrite (nan_count_0 cs H) in E. lia.
Qed.

Lemma histogram_partition_witness :
  Forall (fun c => is_nan c = false) Samples.three_confidences /\
  high_count Samples.three_confidences + medium_count Samples.three_confidences
    + low_count Samples.three_confidences = length Samples.three_confidences.
Proof.
  assert (H : Forall (fun c => is_nan c = false) Samples.three_confidences)
    by (repeat constructor).
  split; [exact H | exact (histogram_partition Samples.three_confidences H)].
Defined.

(** C6, as stated, fails on a list that holds NaN: every comparison with
    NaN is false, so the entry is counted by none of the three filters. *)
Lemma histogram_misses_NaN :
  high_count [NaN] + medium_count [NaN] + low_count [NaN] <> length [NaN].
Proof. cbn. discriminate. Qed.

End Histogram.

(* ===================================================================== *)
(** ** ProcessingLogs: the average confidence *)
(* ===================================================================== *)

Section Average.

Import JS ProcessingLogs.

Lemma div_zero_zero : div zero (of_nat 0) = NaN.
Proof. reflexivity. Qed.

(** C8.  With [confidences] present and empty the average is the quotient
    of the empty sum [0] by the length [0], which is NaN; with the field
    present the selected strategy's confidence plays no part, and it is
    the value only when the field (or the whole metadata) is absent. *)
Theorem avgConfidence_empty_is_NaN (result : ProcessingResult) :
  (metadata_confidences result = Some [] ->
     avgConfidence result = div zero (of_nat 0) /\ avgConfidence result = NaN) /\
  (forall cs, metadata_confidences result = Some cs ->
     avgConfidence result = div (sum cs) (of_nat (length cs))) /\
  (metadata_confidences result = None ->
     avgConfidence result = selected_confidence (selectedStrategy result)).
Proof.
  unfold avgConfidence. repeat split.
  - now rewrite H.
  - now rewrite H.
  - intros cs H. now rewrite H.
  - intros H. now rewrite H.
Qed.

Lemma avgConfidence_empty_is_NaN_witness :
  avgConfidence Samples.single_page = NaN /\
  selected_confidence (selectedStrategy Samples.single_page) = Samples.c_0_9 /\
  avgConfidence Samples.no_confidences = Samples.c_0_9.
Proof.
  split; [|split].
  - exact (proj2 (proj1 (avgConfidence_empty_is_NaN Samples.single_page) eq_refl)).
  - reflexivity.
  - exact (proj2 (proj2 (avgConfidence_empty_is_NaN Samples.no_confidences)) eq_refl).
Defined.

(** NaN passes neither threshold test, so the average of a single-page
    document is drawn in the colour of low confidence. *)
Lemma avgConfidence_single_page_color :
  getConfidenceColor (avgConfidence Samples.single_page) = Red.
Proof. reflexivity. Qed.

(** With metadata at hand and processing over, the component returns the
    four cards; the confidence and preview cards are the ones studied
    below. *)
Lemma render_complete (r : ProcessingResult) (m : Metadata) (st : ExpandedSections) :
  metadata r = Some m ->
  render (Some r) false st =
    CompleteView (summary_card r) (ordering st, ordering_card r)
      (option_map (pair (confidence_open st)) (confidence_card m))
      (option_map (pair (preview st)) (preview_entries m)).
Proof. intros H. unfold render. now rewrite H. Qed.

Lemma summary_single_page :
  avg_confidence (summary_card Samples.single_page) = NaN /\
  total_pages (summary_card Samples.single_page) = 1.
Proof. split; reflexivity. Qed.

End Average.

(* ===================================================================== *)
(** ** ProcessingLogs: the transition list *)
(* ===================================================================== *)

Section Transitions.

Import JS ProcessingLogs.

Lemma transition_rows_length (m : Metadata) (cs : list number) :
  length (transition_rows m cs) = Nat.min 10 (length cs).
Proof. unfold transition_rows. now rewrite length_imap, length_take. Qed.

Lemma transition_rows_lookup (m : Metadata) (cs : list number) (idx : nat) row :
  transition_rows m cs !! idx = Some row <->
  idx < 10 /\ exists conf, cs !! idx = Some conf /\ row = transition_row m idx conf.
Proof.
  unfold transition_rows. rewrite list_lookup_imap. split.
  - intros H. destruct (take 10 cs !! idx) as [conf|] eqn:E; [|discriminate].
    apply lookup_take_Some in E as [E Hlt]. cbn in H. injection H as <-.
    split; [exact Hlt|]. now exists conf.
  - intros (Hlt & conf & E & ->).
    now rewrite (lookup_take_lt cs 10 idx Hlt), E.
Qed.

(** A row shows its left end, its confidence, and, when the page that
    follows is not page 0, that page. *)
Lemma transition_row_shown (m : Metadata) (cs : list number) (fo : list nat)
  (idx : nat) (conf : number) (p q : nat) :
  final_order m = Some fo -> idx < 10 ->
  cs !! idx = Some conf -> fo !! idx = Some p -> fo !! (idx + 1) = Some (S q) ->
  exists row, transition_rows m cs !! idx = Some row /\
    row_from row = Some p /\ row_to row = ShownPage (S q) /\ row_conf row = conf.
Proof.
  intros Hfo Hlt Hc Hp Hq. exists (transition_row m idx conf). split.
  - apply transition_rows_lookup. split; [exact Hlt|]. now exists conf.
  - unfold transition_row, final_order_at; cbn. rewrite Hfo, Hp, Hq. now cbn.
Qed.

(** C9.  In a drawn row [idx] the right end is [final_order[idx + 1] ||
    'End']: when page 0 stands at position [idx + 1] the row shows the
    text End, whether or not it is the last row. *)
Theorem zero_next_page_shows_End (m : Metadata) (cs : list number)
  (idx : nat) (row : TransitionRow) :
  transition_rows m cs !! idx = Some row ->
  final_order_at m (idx + 1) = Some 0 ->
  row_to row = ShownText "End".
Proof.
  intros Hrow Hzero.
  apply transition_rows_lookup in Hrow as (_ & conf & _ & ->).
  unfold transition_row; cbn. now rewrite Hzero.
Qed.

(** Three pages in the order 1, 0, 2: the first of the two rows, which is
    not the last one, reads "1 -> End". *)
Lemma zero_next_page_shows_End_witness :
  exists row,
    transition_rows Samples.zero_second [Samples.c_0_9; Samples.c_0_7] !! 0 = Some row /\
    length (transition_rows Samples.zero_second [Samples.c_0_9; Samples.c_0_7]) = 2 /\
    row_from row = Some 1 /\
    row_to row = ShownText "End".
Proof.
  exists (transition_row Samples.zero_second 0 Samples.c_0_9).
  split; [reflexivity|]. split; [reflexivity|]. split; [reflexivity|].
  exact (zero_next_page_shows_End Samples.zero_second
           [Samples.c_0_9; Samples.c_0_7] 0 _ eq_refl eq_refl).
Defined.

(** The left end of a row is drawn without a default: page 0 shows as 0. *)
Lemma left_end_shows_page_zero :
  exists row,
    transition_rows Samples.zero_second [Samples.c_0_9; Samples.c_0_7] !! 1 = Some row /\
    row_from row = Some 0 /\ row_to row = ShownPage 2.
Proof. eexists. repeat split. Qed.

(** C5, on the two-page document whose pages come out swapped: the only
    transition is from page 1 to page 0, and the row drawn for it reads
    "1 -> End": page 0 is not shown. *)
Theorem transition_row_hides_page_zero :
  confidences Samples.swapped = Some [Samples.c_0_9] /\
  final_order Samples.swapped = Some [1; 0] /\
  transition_rows Samples.swapped [Samples.c_0_9] =
    [{| row_from := Some 1; row_to := ShownText "End"; row_conf := Samples.c_0_9;
        row_bg := Green; row_color := Green |}] /\
  forall row, transition_rows Samples.swapped [Samples.c_0_9] !! 0 = Some row ->
    row_to row <> ShownPage 0.
Proof.
  repeat split.
  intros row H. cbn in H. injection H as <-. discriminate.
Qed.

End Transitions.

(* ===================================================================== *)
(** ** ProcessingLogs: the content preview *)
(* ===================================================================== *)

Section Preview.

Import JS ProcessingLogs.

(** [s.substring(0, n)] is the prefix of [s] of length [min n |s|]. *)
Lemma substring_take (n : nat) (s : str) : substring s 0 n = take n s.
Proof.
  unfold substring. rewrite Nat.min_0_l, Nat.max_0_l, Nat.sub_0_r. reflexivity.
Qed.

Lemma substring_prefix (n : nat) (s : str) :
  exists rest, s = substring s 0 n ++ rest /\
               length (substring s 0 n) = Nat.min n (length s).
Proof.
  rewrite substring_take. exists (drop n s). split.
  - symmetry. apply take_drop.
  - apply length_take.
Qed.

Lemma substring_short (n : nat) (s : str) :
  length s <= n -> substring s 0 n = s.
Proof. intros H. rewrite substring_take. now apply take_ge. Qed.

Lemma append_empty (t : string) : String.append t EmptyString = t.
Proof.
  induction t as [|c t IH]; [reflexivity|].
  change (String c (String.append t EmptyString) = String c t). now rewrite IH.
Qed.

(** Replacing line feeds keeps the length and every other code unit. *)
Lemma replace_line_feeds_length (s : str) :
  length (replace_line_feeds s) = length s.
Proof. unfold replace_line_feeds. apply length_map. Qed.

Lemma replace_line_feeds_get (s : str) (i : nat) :
  replace_line_feeds s !! i =
  option_map (fun c => if N.eqb c line_feed_unit then space_unit else c) (s !! i).
Proof. unfold replace_line_feeds. apply list_lookup_fmap. Qed.

Lemma replace_line_feeds_id (s : str) :
  (forall i, s !! i <> Some line_feed_unit) -> replace_line_feeds s = s.
Proof.
  unfold replace_line_feeds. induction s as [|c s IH]; intros H; [reflexivity|]. cbn.
  destruct (N.eqb c line_feed_unit) eqn:E.
  - apply N.eqb_eq in E. subst c. now destruct (H 0).
  - f_equal. apply IH. intros i. exact (H (S i)).
Qed.

Lemma preview_entries_length (m : Metadata) (sm : gmap nat str) (fo : list nat) es :
  summaries m = Some sm -> final_order m = Some fo ->
  preview_entries m = Some es -> length es = Nat.min 8 (length fo).
Proof.
  unfold preview_entries. intros -> -> [= <-].
  now rewrite length_imap, length_take.
Qed.

(** C7.  The entry drawn at position [p < 8] is for the page
    [final_order[p]], and its text is the excerpt stored under that page
    index, not under [p]: the first 150 UTF-16 code units of the excerpt
    (line feeds drawn as spaces), followed by "..." exactly when the
    excerpt has more than 150 code units. *)
Theorem preview_keyed_by_page (m : Metadata) (sm : gmap nat str)
  (fo : list nat) (p pageIdx : nat) (s : str) :
  summaries m = Some sm -> final_order m = Some fo ->
  p < 8 -> fo !! p = Some pageIdx -> sm !! pageIdx = Some s ->
  exists es e,
    preview_entries m = Some es /\ es !! p = Some e /\
    entry_position e = p /\ entry_page e = pageIdx /\
    entry_text e = Some (replace_line_feeds (substring s 0 150)) /\
    entry_shown e = replace_line_feeds (substring s 0 150) ++ entry_ellipsis e /\
    substring s 0 150 = take 150 s /\
    length (substring s 0 150) = Nat.min 150 (length s) /\
    (exists rest, s = substring s 0 150 ++ rest) /\
    (150 < length s -> entry_ellipsis e = lit "...") /\
    (length s <= 150 ->
       entry_ellipsis e = [] /\
       entry_shown e = replace_line_feeds s) /\
    ((forall i, substring s 0 150 !! i <> Some line_feed_unit) ->
       entry_text e = Some (substring s 0 150)).
Proof.
  intros Hsm Hfo Hp Hpage Hs.
  exists (imap (preview_entry sm) (take 8 fo)), (preview_entry sm p pageIdx).
  destruct (substring_prefix 150 s) as (rest & Hrest & Hlen).
  unfold preview_entries. rewrite Hsm, Hfo.
  split; [reflexivity|]. split.
  { now rewrite list_lookup_imap, (lookup_take_lt fo 8 p Hp), Hpage. }
  unfold entry_shown, preview_entry, preview_text, preview_ellipsis;
    cbn [entry_position entry_page entry_text entry_ellipsis].
  rewrite Hs.
  split; [reflexivity|]. split; [reflexivity|]. split; [reflexivity|].
  split; [reflexivity|]. split; [apply substring_take|].
  split; [exact Hlen|]. split; [now exists rest|]. split.
  - intros H. apply Nat.ltb_lt in H. now rewrite H.
  - split.
    + intros H. assert (E : (150 <? length s) = false) by (apply Nat.ltb_ge; exact H).
      rewrite E. split; [reflexivity|].
      rewrite (substring_short 150 s H).
      apply app_nil_r.
    + intros H. now rewrite (replace_line_feeds_id _ H).
Qed.

(** Pages in the order 2, 0, 1: position 0 shows the excerpt of page 2. *)
Lemma preview_keyed_by_page_witness :
  exists es e,
    preview_entries Samples.with_excerpts = Some es /\ es !! 0 = Some e /\
    entry_page e = 2 /\ entry_shown e = lit "ARTICLE - I" /\
    Samples.excerpts !! 0 = Some (lit "LOAN AGREEMENT").
Proof.
  destruct (preview_keyed_by_page Samples.with_excerpts Samples.excerpts
              [2; 0; 1] 0 2 (lit "ARTICLE - I") eq_refl eq_refl)
    as (es & e & Hes & He & _ & Hpage & _ & _ & _ & _ & _ & _ & Hshort & _);
    [lia | reflexivity | reflexivity |].
  exists es, e. destruct Hshort as [_ Hshown]; [cbn; lia|].
  repeat split; try assumption.
Defined.

(** An excerpt of 160 code units is cut after 150 and marked; its line
    feed is drawn as a space. *)
Lemma preview_long_excerpt :
  option_map (map entry_shown) (preview_entries Samples.with_long_excerpt) =
  Some [lit "Page " ++ repeat 120%N 145 ++ lit "...";
        lit "LOAN AGREEMENT"].
Proof. vm_compute. reflexivity. Qed.

(** Outside ASCII the count is in code units, not in bytes: 60 rupee
    signs are shown whole and unmarked, 151 are cut to 150 and marked,
    and a character outside the basic plane that straddles the limit
    is cut between its two surrogates. *)
Lemma preview_non_ascii_excerpts :
  option_map (map entry_shown) (preview_entries Samples.with_non_ascii_excerpts) =
  Some [repeat Samples.rupee 60;
        repeat Samples.rupee 150 ++ lit "...";
        repeat 120%N 149 ++ [55357%N] ++ lit "..."].
Proof. vm_compute. reflexivity. Qed.

End Preview.

(* ===================================================================== *)
(** ** PDFViewer: page navigation *)
(* ===================================================================== *)

Section Navigation.

Import PDFViewer.
Local Open Scope Z_scope.

(** A load puts the viewer on page 1. *)
Lemma load_in_range (n : Z) (s : State) : page_in_range (onDocumentLoadSuccess n s).
Proof. unfold page_in_range; cbn. lia. Qed.

(** [goToPrevPage] never goes below page 1 and never moves forward. *)
Lemma goToPrevPage_in_range (s : State) :
  page_in_range s -> page_in_range (goToPrevPage s).
Proof. unfold page_in_range; cbn. lia. Qed.

(** [goToNextPage] stops at [numPages], as long as there is a page. *)
Lemma goToNextPage_in_range (s : State) :
  1 <= numPages s -> page_in_range s -> page_in_range (goToNextPage s).
Proof. unfold page_in_range; cbn. lia. Qed.

Lemma goToPrevPage_clamps (s : State) :
  pageNumber s <= 1 -> pageNumber (goToPrevPage s) = 1.
Proof. cbn. lia. Qed.

Lemma goToNextPage_clamps (s : State) :
  numPages s <= pageNumber s -> pageNumber (goToNextPage s) = numPages s.
Proof. cbn. lia. Qed.

(** With no page there is no navigation bar, and a press changes nothing. *)
Lemma press_without_pages (s : State) (e : Event) :
  numPages s <= 0 -> e = PressPrev \/ e = PressNext -> step s e = s.
Proof.
  intros H [-> | ->]; cbn [step]; unfold controls_rendered;
    (assert (E : (0 <? numPages s) = false) by (apply Z.ltb_ge; exact H));
    now rewrite E.
Qed.

Lemma step_in_range (s : State) (e : Event) :
  page_in_range s -> page_in_range (step s e).
Proof.
  intros H. destruct e as [n| |]; cbn [step].
  - apply load_in_range.
  - destruct (controls_rendered s && negb (prev_disabled s)); [|exact H].
    now apply goToPrevPage_in_range.
  - destruct (controls_rendered s) eqn:E; cbn [andb]; [|exact H].
    destruct (negb (next_disabled s)); [|exact H].
    apply goToNextPage_in_range; [|exact H].
    unfold controls_rendered in E. apply Z.ltb_lt in E. lia.
Qed.

Lemma run_in_range (es : list Event) (s : State) :
  page_in_range s -> page_in_range (run s es).
Proof.
  unfold run. revert s. induction es as [|e es IH]; intros s H; cbn.
  - exact H.
  - apply IH. now apply step_in_range.
Qed.

(** C10.  From the moment a document has loaded, whatever buttons are
    pressed afterwards (and whatever reloads happen in between),
    [1 <= pageNumber <= max(numPages, 1)]. *)
Theorem pageNumber_stays_in_range (n : Z) (s : State) (es : list Event) :
  page_in_range (run (onDocumentLoadSuccess n s) es).
Proof. apply run_in_range, load_in_range. Qed.

(** A three-page document: forward three times stops on page 3, back
    three times stops on page 1. *)
Lemma three_pages_walk :
  pageNumber (run (onDocumentLoadSuccess 3 initial) [PressNext; PressNext; PressNext]) = 3 /\
  pageNumber (run (onDocumentLoadSuccess 3 initial)
                [PressNext; PressPrev; PressPrev; PressPrev]) = 1.
Proof. split; reflexivity. Qed.

End Navigation.

(* ===================================================================== *)
(** ** Engine: the permutation invariant *)
(* ===================================================================== *)

Section PermutationInvariant.

Import Engine.

(** The check accepts exactly the permutations of [0, N). *)
Lemma is_permutation_sound (N : nat) (l : list nat) :
  is_permutation N l = true -> Permutation l (seq 0 N).
Proof.
  unfold is_permutation. intros H.
  apply andb_prop in H as [Hlen Hocc].
  apply Nat.eqb_eq in Hlen.
  symmetry. apply NoDup_Permutation_bis.
  - apply seq_NoDup.
  - rewrite length_seq. lia.
  - intros i Hi. rewrite forallb_forall in Hocc.
    specialize (Hocc i Hi). apply Nat.eqb_eq in Hocc.
    apply (count_occ_In Nat.eq_dec). lia.
Qed.

Lemma is_permutation_complete (N : nat) (l : list nat) :
  Permutation l (seq 0 N) -> is_permutation N l = true.
Proof.
  intros H. unfold is_permutation. apply andb_true_intro. split.
  - apply Nat.eqb_eq. rewrite (Permutation_length H). apply length_seq.
  - apply forallb_forall. intros i Hi. apply Nat.eqb_eq.
    rewrite (Permutation_count_occ Nat.eq_dec l (seq 0 N)) in H.
    rewrite H. apply NoDup_count_occ'; [apply seq_NoDup | exact Hi].
Qed.

Lemma permutation_facts (N : nat) (l : list nat) :
  Permutation l (seq 0 N) ->
  length l = N /\ List.NoDup l /\ (forall i, i < N <-> In i l).
Proof.
  intros H. split; [|split].
  - rewrite (Permutation_length H). apply length_seq.
  - apply (Permutation_NoDup (Permutation_sym H)), seq_NoDup.
  - intros i. rewrite (Permutation_in' (eq_refl i) H), in_seq. lia.
Qed.

Lemma attempt_Some (cfg : Config) (pages : list PageContent) s r :
  attempt cfg pages s = Some r <->
  library cfg s pages = Some r /\ is_permutation (length pages) (order r) = true.
Proof.
  unfold attempt. destruct (library cfg s pages) as [r'|]; [|split; [discriminate|now intros [? _]]].
  destruct (is_permutation (length pages) (order r')) eqn:E.
  - split; [intros [= <-]; now split | now intros [[= <-] _]].
  - split; [discriminate|]. intros [[= <-] H]. congruence.
Qed.

Lemma collect_attempted (cfg : Config) (pages : list PageContent) ss s r :
  In (s, r) (collect cfg pages ss) -> In s ss /\ attempt cfg pages s = Some r.
Proof.
  induction ss as [|s0 ss IH]; cbn; [tauto|].
  destruct (attempt cfg pages s0) as [r0|] eqn:E.
  - intros [[= <- <-]|H]; [now split; [left|]|].
    destruct (clears (evaluation cfg) r0); [destruct H|].
    destruct (IH H). split; [now right | assumption].
  - intros H. destruct (IH H). split; [now right | assumption].
Qed.

Lemma select_In cs c :
  select cs = Some c -> In c cs.
Proof.
  revert c. induction cs as [|c0 cs IH]; intros c; cbn; [discriminate|].
  destruct (select cs) as [d|].
  - destruct (beats d c0); intros [= <-]; [right; now apply IH | now left].
  - intros [= <-]. now left.
Qed.

Lemma select_None cs : select cs = None <-> cs = [].
Proof.
  destruct cs as [|c cs]; cbn; [tauto|].
  split; [|discriminate]. destruct (select cs) as [d|]; [destruct (beats d c)|]; discriminate.
Qed.

(** The order the orchestrator ends on: the winner's, or the identity. *)
Lemma final_order_cases (cfg : Config) (pages : list PageContent) :
  let res := orchestrate cfg pages in
  final_order res = order (selected res) /\
  ((exists s, In (s, selected res) (collect cfg pages priority_order)) \/
   (collect cfg pages priority_order = [] /\ selected res = fallback (length pages))).
Proof.
  intros res; subst res. unfold orchestrate; cbn [selected final_order].
  destruct (select (collect cfg pages priority_order)) as [[s r]|] eqn:E; cbn [fst snd].
  - split; [reflexivity|]. left. exists s. now apply select_In.
  - split; [reflexivity|]. right. split; [now apply select_None | reflexivity].
Qed.

Lemma attempt_permutation (cfg : Config) (pages : list PageContent) s r :
  attempt cfg pages s = Some r -> Permutation (order r) (seq 0 (length pages)).
Proof.
  intros H. apply attempt_Some in H as [_ H]. now apply is_permutation_sound.
Qed.

Lemma final_order_permutation (cfg : Config) (pages : list PageContent) :
  Permutation (final_order (orchestrate cfg pages)) (seq 0 (length pages)).
Proof.
  destruct (final_order_cases cfg pages) as [-> [[s Hs]|[_ ->]]].
  - apply collect_attempted in Hs as [_ Hs]. now apply (attempt_permutation cfg pages s).
  - reflexivity.
Qed.

(** C1.  Over [N] pages, whatever the strategies return: a result counts
    as a strategy's answer only if its order is a permutation of [0, N)
    (exactly [N] entries, every index once); a result that is not one is
    an abstention; the orchestrator's [final_order] is a permutation of
    [0, N); and the LLM-Reasoning strategy abstains by itself unless the
    proposed order is one. *)
Theorem orders_are_permutations (cfg : Config) (pages : list PageContent) :
  (forall s r, attempt cfg pages s = Some r ->
     Permutation (order r) (seq 0 (length pages)) /\
     length (order r) = length pages /\ List.NoDup (order r)) /\
  (forall s r, library cfg s pages = Some r ->
     ~ Permutation (order r) (seq 0 (length pages)) -> attempt cfg pages s = None) /\
  (Permutation (final_order (orchestrate cfg pages)) (seq 0 (length pages)) /\
   length (final_order (orchestrate cfg pages)) = length pages /\
   List.NoDup (final_order (orchestrate cfg pages))) /\
  (forall transport summary r, llm_reasoning transport summary pages = Some r ->
     Permutation (order r) (seq 0 (length pages))).
Proof.
  assert (Hfacts : forall l, Permutation l (seq 0 (length pages)) ->
            Permutation l (seq 0 (length pages)) /\ length l = length pages /\ List.NoDup l).
  { intros l H. destruct (permutation_facts _ _ H) as (? & ? & _). auto. }
  split; [|split; [|split]].
  - intros s r H. apply Hfacts. now apply (attempt_permutation cfg pages s).
  - intros s r Hlib Hnot. unfold attempt. rewrite Hlib.
    destruct (is_permutation (length pages) (order r)) eqn:E; [|reflexivity].
    destruct Hnot. now apply is_permutation_sound.
  - apply Hfacts, final_order_permutation.
  - intros transport summary r. unfold llm_reasoning.
    destruct (transport _) as [resp|]; [|discriminate].
    destruct (is_permutation (length pages) (proposed_order resp)) eqn:E; [|discriminate].
    intros [= <-]. cbn. now apply is_permutation_sound.
Qed.

(** Page-Number returns page 0 twice and is set aside; the order of
    Date-Sequence is the final one. *)
Lemma orders_are_permutations_witness :
  library (Samples.config Samples.one_broken RunAll) PageNumber Samples.three_pages
    = Some (Samples.answer PageNumber [0; 0; 1] (95 # 100)) /\
  attempt (Samples.config Samples.one_broken RunAll) Samples.three_pages PageNumber = None /\
  final_order (orchestrate (Samples.config Samples.one_broken RunAll) Samples.three_pages)
    = [1; 2; 0] /\
  Permutation
    (final_order (orchestrate (Samples.config Samples.one_broken RunAll) Samples.three_pages))
    (seq 0 3).
Proof.
  pose proof (orders_are_permutations
                (Samples.config Samples.one_broken RunAll) Samples.three_pages)
    as (_ & Hbroken & (Hfinal & _) & _).
  split; [reflexivity|]. split; [|split; [reflexivity | exact Hfinal]].
  apply (Hbroken PageNumber (Samples.answer PageNumber [0; 0; 1] (95 # 100)) eq_refl).
  intros H. apply is_permutation_complete in H. discriminate H.
Defined.

End PermutationInvariant.

(* ===================================================================== *)
(** ** Engine: selection *)
(* ===================================================================== *)

Section Selection.

Import Engine.

(** [at_least w c]: [c] does not beat [w]. *)
Lemma beats_false (c w : StrategyId * OrderingResult) :
  beats c w = false <->
  (confidence (snd c) < confidence (snd w))%Q \/
  ((confidence (snd c) == confidence (snd w))%Q /\ rank (fst w) <= rank (fst c)).
Proof.
  unfold beats.
  destruct (Qcompare_spec (confidence (snd c)) (confidence (snd w))) as [E|E|E].
  - rewrite Nat.ltb_ge. split; [intros H; right; now split|].
    intros [H|[_ H]]; [lra | exact H].
  - split; [now left | reflexivity].
  - split; [discriminate|]. intros [H|[H _]]; lra.
Qed.

Lemma beats_true (d c : StrategyId * OrderingResult) :
  beats d c = true -> beats c d = false.
Proof.
  intros H. apply beats_false. unfold beats in H.
  destruct (Qcompare_spec (confidence (snd d)) (confidence (snd c))) as [E|E|E];
    try discriminate H.
  - apply Nat.ltb_lt in H. right. split; [lra | lia].
  - now left.
Qed.

Lemma beats_false_trans (c d w : StrategyId * OrderingResult) :
  beats c d = false -> beats d w = false -> beats c w = false.
Proof.
  rewrite !beats_false. intros [H1|[H1 R1]] [H2|[H2 R2]].
  - left; lra.
  - left; lra.
  - left; lra.
  - right. split; [lra | lia].
Qed.

(** Nothing in the list beats the selected candidate. *)
Lemma select_unbeaten cs w :
  select cs = Some w -> forall c, In c cs -> beats c w = false.
Proof.
  revert w. induction cs as [|c0 cs IH]; intros w; cbn [select]; [discriminate|].
  destruct (select cs) as [d|] eqn:E.
  - destruct (beats d c0) eqn:B; intros [= <-] c [<-|Hc].
    + now apply beats_true.
    + now apply IH.
    + apply beats_false. right. split; [reflexivity | lia].
    + apply (beats_false_trans c d c0); [now apply IH | exact B].
  - intros [= <-] c [<-|Hc].
    + apply beats_false. right. split; [reflexivity | lia].
    + apply select_None in E. subst cs. destruct Hc.
Qed.

(** Page-Number is first in the ranking and LLM-Reasoning last. *)
Lemma rank_bounds (s : StrategyId) :
  rank PageNumber <= rank s <= rank LLMReasoning.
Proof. destruct s; cbn; lia. Qed.

Lemma rank_priority_order : map rank priority_order = seq 0 6.
Proof. reflexivity. Qed.

Lemma rank_injective (s t : StrategyId) : rank s = rank t -> s = t.
Proof. destruct s, t; cbn; congruence. Qed.

(** C4.  Against any result [r'] a strategy [s'] contributed, the selected
    result is one a strategy [s] contributed, its confidence is at least
    that of [r'], and at equal confidence [s] does not rank after [s']. *)
Theorem selected_has_highest_confidence (cfg : Config) (pages : list PageContent)
  (s' : StrategyId) (r' : OrderingResult) :
  In (s', r') (collect cfg pages priority_order) ->
  exists s,
    In (s, selected (orchestrate cfg pages)) (collect cfg pages priority_order) /\
    (confidence r' <= confidence (selected (orchestrate cfg pages)))%Q /\
    ((confidence r' == confidence (selected (orchestrate cfg pages)))%Q ->
       rank s <= rank s').
Proof.
  intros Hin. unfold orchestrate; cbn [selected].
  destruct (select (collect cfg pages priority_order)) as [[s r]|] eqn:E; cbn [fst].
  - exists s. split; [now apply select_In|].
    pose proof (select_unbeaten _ _ E _ Hin) as H.
    apply beats_false in H; cbn [fst snd] in H.
    destruct H as [H|[H R]]; split; try lra; intros; try lra; exact R.
  - apply select_None in E. rewrite E in Hin. destruct Hin.
Qed.

(** The tie of the specification: Page-Number and Structural-Pattern both
    at 0.90; Page-Number is selected. *)
Lemma selected_has_highest_confidence_witness :
  In (StructuralPattern, Samples.answer StructuralPattern [1; 0; 2] (9 # 10))
     (collect (Samples.config Samples.tied RunAll) Samples.three_pages priority_order) /\
  selected (orchestrate (Samples.config Samples.tied RunAll) Samples.three_pages)
    = Samples.answer PageNumber [1; 2; 0] (9 # 10) /\
  exists s,
    In (s, selected (orchestrate (Samples.config Samples.tied RunAll) Samples.three_pages))
       (collect (Samples.config Samples.tied RunAll) Samples.three_pages priority_order) /\
    rank s <= rank StructuralPattern.
Proof.
  assert (Hin : In (StructuralPattern, Samples.answer StructuralPattern [1; 0; 2] (9 # 10))
     (collect (Samples.config Samples.tied RunAll) Samples.three_pages priority_order))
    by (right; left; reflexivity).
  split; [exact Hin|]. split; [reflexivity|].
  destruct (selected_has_highest_confidence _ _ _ _ Hin) as (s & Hs & _ & Htie).
  exists s. split; [exact Hs|]. apply Htie. reflexivity.
Defined.

(** The other scenario: 0.91 against 0.93, every strategy run. *)
Lemma higher_confidence_selected :
  method (selected (orchestrate (Samples.config Samples.close_call RunAll) Samples.three_pages))
    = ByStrategy DateSequence /\
  final_order (orchestrate (Samples.config Samples.close_call RunAll) Samples.three_pages)
    = [2; 1; 0].
Proof. split; reflexivity. Qed.

(** With an early exit at 0.9 the run stops at the first result that
    clears the cutoff; later strategies contribute nothing. *)
Lemma early_exit_stops :
  map fst (collect (Samples.config Samples.close_call (EarlyExit (9 # 10)))
             Samples.three_pages priority_order) = [BusinessLogic].
Proof. reflexivity. Qed.

End Selection.

(* ===================================================================== *)
(** ** Engine: confidence bounds and the terminal fallback *)
(* ===================================================================== *)

Section Confidence.

Import Engine.

Lemma clamp01_bounds (q : Q) : (0 <= clamp01 q <= 1)%Q.
Proof.
  unfold clamp01. split.
  - apply Q.le_max_l.
  - apply Q.max_lub; [lra | apply Q.le_min_l].
Qed.

Lemma clamp01_id (q : Q) : (0 <= q <= 1)%Q -> (clamp01 q == q)%Q.
Proof.
  intros [H0 H1]. unfold clamp01.
  rewrite (Q.min_r 1 q H1). now apply Q.max_r.
Qed.

Lemma insert_candidate_In (c x : Method * Q) (l : list (Method * Q)) :
  In x (insert_candidate c l) <-> x = c \/ In x l.
Proof.
  induction l as [|d l IH]; cbn.
  - intuition congruence.
  - destruct (Qle_bool (snd d) (snd c)); cbn; [intuition congruence|].
    rewrite IH. intuition congruence.
Qed.

Lemma by_confidence_In (x : Method * Q) (l : list (Method * Q)) :
  In x (by_confidence l) <-> In x l.
Proof.
  unfold by_confidence. induction l as [|c l IH]; cbn; [tauto|].
  rewrite insert_candidate_In, IH. intuition congruence.
Qed.

Lemma collect_nil (cfg : Config) (pages : list PageContent) ss :
  (forall s, In s ss -> attempt cfg pages s = None) -> collect cfg pages ss = [].
Proof.
  induction ss as [|s ss IH]; intros H; cbn; [reflexivity|].
  rewrite (H s (or_introl eq_refl)). apply IH. intros t Ht. apply H. now right.
Qed.

(** The orchestrator adds no confidence of its own.  When the strategies
    report confidences within [0, 1], so does every result the engine
    hands on: each collected result, each entry of [candidates], and the
    selected result.  The terminal fallback carries 0, and the
    LLM-Reasoning strategy clamps whatever number the service reports.
    Whether the six strategies themselves stay within [0, 1] cannot be
    read off the specification, which leaves their formulas open. *)
Theorem confidence_within_unit_interval (cfg : Config) (pages : list PageContent) :
  (forall s r, library cfg s pages = Some r -> (0 <= confidence r <= 1)%Q) ->
  (forall s r, In (s, r) (collect cfg pages priority_order) ->
     (0 <= confidence r <= 1)%Q) /\
  (forall mc, In mc (candidates (orchestrate cfg pages)) -> (0 <= snd mc <= 1)%Q) /\
  (0 <= confidence (selected (orchestrate cfg pages)) <= 1)%Q /\
  (0 <= confidence (fallback (length pages)) <= 1)%Q /\
  (forall transport summary r, llm_reasoning transport summary pages = Some r ->
     (0 <= confidence r <= 1)%Q).
Proof.
  intros Hlib.
  assert (Hcol : forall s r, In (s, r) (collect cfg pages priority_order) ->
                   (0 <= confidence r <= 1)%Q).
  { intros s r H. apply collect_attempted in H as [_ H].
    apply attempt_Some in H as [H _]. now apply (Hlib s). }
  split; [exact Hcol|]. split; [|split; [|split]].
  - intros mc H. unfold orchestrate in H; cbn [candidates] in H.
    apply (proj1 (by_confidence_In _ _)) in H.
    apply (proj1 (in_map_iff _ _ _)) in H as ([s r] & <- & H).
    cbn. now apply (Hcol s).
  - destruct (final_order_cases cfg pages) as [_ [[s Hs]|[_ ->]]].
    + now apply (Hcol s).
    + cbn. lra.
  - cbn. lra.
  - intros transport summary r. unfold llm_reasoning.
    destruct (transport _) as [resp|]; [|discriminate].
    destruct (is_permutation _ _); [|discriminate].
    intros [= <-]. cbn. apply clamp01_bounds.
Qed.

(** Two strategies at 0.91 and 0.93; a service that reports 1.2 is
    brought back to 1. *)
Lemma confidence_within_unit_interval_witness :
  (0 <= confidence (selected (orchestrate (Samples.config Samples.close_call RunAll)
                                Samples.three_pages)) <= 1)%Q /\
  exists r, llm_reasoning Samples.eager_service (String.substring 0 80) Samples.three_pages
              = Some r /\
            (confidence r == 1)%Q /\ (0 <= confidence r <= 1)%Q.
Proof.
  assert (Hlib : forall s r,
            library (Samples.config Samples.close_call RunAll) s Samples.three_pages = Some r ->
            (0 <= confidence r <= 1)%Q).
  { intros s r. destruct s; cbn; intros [= <-]; cbn; lra. }
  pose proof (confidence_within_unit_interval
                (Samples.config Samples.close_call RunAll) Samples.three_pages Hlib)
    as (_ & _ & Hsel & _ & Hllm).
  split; [exact Hsel|].
  eexists. split; [reflexivity|]. split; [reflexivity|].
  apply (Hllm Samples.eager_service (String.substring 0 80)). reflexivity.
Defined.

(** Nothing in the orchestrator brings a strategy's confidence back into
    [0, 1]: a strategy that reports 1.5 is selected with 1.5. *)
Lemma confidence_handed_on :
  confidence (selected (orchestrate (Samples.config Samples.over_confident RunAll)
                          Samples.three_pages)) = 3 # 2.
Proof. reflexivity. Qed.

(** C3.  When every strategy abstains (returns nothing, or nothing that is
    a permutation), the orchestrator still returns a result: the final
    order is the identity [initial_order], the confidence is 0, the
    reasoning holds one entry saying that no strategy could decide, and
    no candidate is listed. *)
Theorem all_abstain_identity_order (cfg : Config) (pages : list PageContent) :
  (forall s, attempt cfg pages s = None) ->
  final_order (orchestrate cfg pages) = initial_order (orchestrate cfg pages) /\
  initial_order (orchestrate cfg pages) = seq 0 (length pages) /\
  confidence (selected (orchestrate cfg pages)) = 0%Q /\
  method (selected (orchestrate cfg pages)) = TerminalFallback /\
  reasoning (selected (orchestrate cfg pages)) =
    ["No strategy could decide on an order; the pages keep their original order"%string] /\
  reasoning (selected (orchestrate cfg pages)) <> [] /\
  candidates (orchestrate cfg pages) = [].
Proof.
  intros H. unfold orchestrate.
  rewrite (collect_nil cfg pages priority_order (fun s _ => H s)).
  cbn. repeat split. discriminate.
Qed.

Lemma all_abstain_identity_order_witness :
  final_order (orchestrate (Samples.config Samples.silent RunAll) Samples.three_pages)
    = [0; 1; 2] /\
  confidence (selected (orchestrate (Samples.config Samples.silent RunAll) Samples.three_pages))
    = 0%Q /\
  reasoning (selected (orchestrate (Samples.config Samples.silent RunAll) Samples.three_pages))
    <> [].
Proof.
  pose proof (all_abstain_identity_order
                (Samples.config Samples.silent RunAll) Samples.three_pages
                (fun s => eq_refl))
    as (Hfinal & Hinit & Hconf & _ & _ & Hreason & _).
  split; [|split; [exact Hconf | exact Hreason]].
  rewrite Hfinal. exact Hinit.
Defined.

End Confidence.

(* ===================================================================== *)
(** ** Engine: per-transition confidences *)
(* ===================================================================== *)

Section Pairwise.

Import Engine.

Lemma adjacent_length (l : list nat) : length (adjacent l) = length l - 1.
Proof.
  unfold adjacent. rewrite length_combine.
  destruct l as [|a l]; cbn [length tl]; lia.
Qed.

Lemma adjacent_lookup (l : list nat) (i : nat) (a b : nat) :
  l !! i = Some a -> l !! (i + 1) = Some b -> adjacent l !! i = Some (a, b).
Proof.
  unfold adjacent. revert i. induction l as [|x l IH]; intros i Ha Hb; [discriminate|].
  destruct i as [|i]; cbn in *.
  - destruct l as [|y l]; [discriminate|]. cbn in *. congruence.
  - destruct l as [|y l]; [discriminate|]. cbn [tl].
    change ((y :: l) !! i = Some a) in Ha.
    change ((y :: l) !! (i + 1) = Some b) in Hb.
    specialize (IH i Ha Hb). exact IH.
Qed.

Lemma repeat_lookup (q : Q) (n i : nat) : i < n -> repeat q n !! i = Some q.
Proof.
  revert i. induction n as [|n IH]; intros i H; [lia|].
  destruct i as [|i]; [reflexivity|]. cbn. apply IH. lia.
Qed.

Lemma pairwise_length (detail : option (nat -> nat -> Q)) (r : OrderingResult) :
  length (pairwise detail r) = length (order r) - 1.
Proof.
  unfold pairwise. destruct detail as [f|].
  - now rewrite length_map, adjacent_length.
  - apply repeat_length.
Qed.

(** [pairwise_confidences] has one entry per adjacent pair of
    [final_order]: [N - 1] entries over [N] pages. *)
Lemma pairwise_confidences_length (cfg : Config) (pages : list PageContent) :
  length (pairwise_confidences (orchestrate cfg pages)) = length pages - 1.
Proof.
  destruct (permutation_facts _ _ (final_order_permutation cfg pages)) as (Hlen & _).
  rewrite <- Hlen. unfold orchestrate; cbn [pairwise_confidences final_order].
  apply pairwise_length.
Qed.

(** Entry [i] is the detail of the transition from [order[i]] to
    [order[i + 1]] when the strategy supplies one, and the aggregate
    confidence otherwise. *)
Lemma pairwise_entry (detail : option (nat -> nat -> Q)) (r : OrderingResult)
  (i a b : nat) :
  order r !! i = Some a -> order r !! (i + 1) = Some b ->
  pairwise detail r !! i =
    Some (match detail with Some f => f a b | None => confidence r end).
Proof.
  intros Ha Hb. unfold pairwise. destruct detail as [f|].
  - rewrite list_lookup_fmap, (adjacent_lookup _ _ _ _ Ha Hb). reflexivity.
  - apply lookup_lt_Some in Hb. apply repeat_lookup. lia.
Qed.

End Pairwise.

(* ===================================================================== *)
(** ** ProcessingLogs: sections, colours and cards *)
(* ===================================================================== *)

Section Cards.

Import JS ProcessingLogs.

(** X1.  A toggle negates the flag of its own section and leaves the
    two other flags as they are; so toggling a section twice restores
    the state, and toggles of two sections commute. *)
Theorem toggleSection_involutive (k k' : SectionKey) (st : ExpandedSections) :
  ordering (toggleSection OrderingSection st) = negb (ordering st) /\
  confidence_open (toggleSection ConfidenceSection st) = negb (confidence_open st) /\
  preview (toggleSection PreviewSection st) = negb (preview st) /\
  toggleSection k (toggleSection k st) = st /\
  toggleSection k (toggleSection k' st) = toggleSection k' (toggleSection k st) /\
  (k <> OrderingSection -> ordering (toggleSection k st) = ordering st) /\
  (k <> ConfidenceSection -> confidence_open (toggleSection k st) = confidence_open st) /\
  (k <> PreviewSection -> preview (toggleSection k st) = preview st).
Proof.
  destruct st as [o c p].
  split; [reflexivity|]. split; [reflexivity|]. split; [reflexivity|].
  repeat split.
  - destruct k; cbn; now rewrite negb_involutive.
  - destruct k, k'; reflexivity.
  - destruct k; cbn; congruence.
  - destruct k; cbn; congruence.
  - destruct k; cbn; congruence.
Qed.

Lemma toggleSection_involutive_witness :
  preview (toggleSection PreviewSection expandedSections_initial) = false /\
  toggleSection PreviewSection (toggleSection PreviewSection expandedSections_initial)
    = expandedSections_initial /\
  ordering (toggleSection PreviewSection expandedSections_initial) = true.
Proof.
  destruct (toggleSection_involutive PreviewSection PreviewSection expandedSections_initial)
    as (_ & _ & Hown & Hinv & _ & Hord & _).
  split; [rewrite Hown; reflexivity|].
  split; [exact Hinv|]. rewrite Hord; [reflexivity | discriminate].
Defined.

Lemma colour_count_cons (k : Color) (c : number) (cs : list number) :
  colour_count k (c :: cs) =
  (if Color_eqb (getConfidenceColor c) k then 1 else 0) + colour_count k cs.
Proof.
  unfold colour_count; cbn. now destruct (Color_eqb (getConfidenceColor c) k).
Qed.

Lemma color_of_tests (c : number) :
  getConfidenceColor c =
  match bucket_tests c with
  | (true, _, _) => Green
  | (false, _, _) => if ge c lit_0_6 then Yellow else Red
  end.
Proof. unfold getConfidenceColor, bucket_tests. now destruct (ge c lit_0_8). Qed.

(** X2.  The histogram agrees with the colours of the rows: the high
    counter is the number of entries drawn green, the medium counter the
    number drawn yellow, and the entries drawn red are those of the low
    counter together with the NaN entries. *)
Theorem histogram_matches_colours (cs : list number) :
  high_count cs = colour_count Green cs /\
  medium_count cs = colour_count Yellow cs /\
  low_count cs + nan_count cs = colour_count Red cs.
Proof.
  induction cs as [|c cs (IHh & IHm & IHl)]; [repeat split|].
  destruct (counts_cons c cs) as (Hh & Hm & Hl & Hn).
  rewrite Hh, Hm, Hl, Hn, !colour_count_cons, <- IHh, <- IHm, <- IHl.
  clear Hh Hm Hl Hn IHh IHm IHl.
  rewrite (color_of_tests c).
  destruct (is_nan c) eqn:Hc.
  - destruct c; try discriminate Hc. cbn. repeat split; lia.
  - pose proof (ge_not_lt c lit_0_6 Hc eq_refl) as G6.
    assert (Hcol : forall t, bucket_tests c = t -> bucket_tests c = t /\
              ge c lit_0_6 = negb (snd t)).
    { intros t <-. split; [reflexivity | exact G6]. }
    destruct (bucket_tests_number c Hc) as [E|[E|E]];
      destruct (Hcol _ E) as [_ G]; rewrite G, E; cbn; repeat split; lia.
Qed.

(** X3.  The right end of a drawn row reads End exactly when no page
    follows or the page that follows is page 0; otherwise it is the page
    that follows.  Page 0 is never shown at a right end. *)
Theorem row_to_cases (m : Metadata) (cs : list number) (idx : nat) (row : TransitionRow) :
  transition_rows m cs !! idx = Some row ->
  (row_to row = ShownText "End" <->
     final_order_at m (idx + 1) = None \/ final_order_at m (idx + 1) = Some 0) /\
  (forall p, row_to row = ShownPage p <->
     p <> 0 /\ final_order_at m (idx + 1) = Some p) /\
  row_to row <> ShownPage 0.
Proof.
  intros Hrow. apply transition_rows_lookup in Hrow as (_ & conf & _ & ->).
  unfold transition_row; cbn [row_to].
  destruct (final_order_at m (idx + 1)) as [[|q]|]; cbn;
    (split; [|split]); try intros p; try split; intros;
    intuition (try discriminate; try congruence).
Qed.

Lemma row_to_cases_witness :
  exists row,
    transition_rows Samples.zero_second [Samples.c_0_9; Samples.c_0_7] !! 1 = Some row /\
    row_to row = ShownPage 2 /\ row_to row <> ShownPage 0.
Proof.
  exists (transition_row Samples.zero_second 1 Samples.c_0_7).
  destruct (row_to_cases Samples.zero_second [Samples.c_0_9; Samples.c_0_7] 1 _ eq_refl)
    as (_ & Hpage & Hzero).
  split; [reflexivity|]. split; [|exact Hzero].
  apply Hpage. split; [discriminate | reflexivity].
Defined.

(** X4.  The confidence card draws [min 10 n] of the [n] transitions, and
    carries the note "Showing first 10 of n" exactly when some transition
    has no row. *)
Theorem confidence_card_rows (m : Metadata) (cs : list number) :
  confidences m = Some cs ->
  exists card,
    confidence_card m = Some card /\
    length (card_rows card) = Nat.min 10 (length cs) /\
    (card_more card = None <-> length (card_rows card) = length cs) /\
    (card_more card = Some (length cs) <-> length (card_rows card) < length cs) /\
    (forall idx row, card_rows card !! idx = Some row -> cs !! idx = Some (row_conf row)).
Proof.
  intros Hcs. unfold confidence_card. rewrite Hcs. eexists. split; [reflexivity|].
  cbn [card_rows card_more]. rewrite transition_rows_length.
  split; [reflexivity|].
  destruct (10 <? length cs) eqn:E.
  - apply Nat.ltb_lt in E. repeat split; intros; try discriminate; try lia.
    apply transition_rows_lookup in H as (_ & conf & Hc & ->). exact Hc.
  - apply Nat.ltb_ge in E. repeat split; intros; try discriminate; try lia.
    apply transition_rows_lookup in H as (_ & conf & Hc & ->). exact Hc.
Qed.

Lemma confidence_card_rows_witness :
  exists card,
    confidence_card Samples.zero_second = Some card /\
    length (card_rows card) = 2 /\ card_more card = None.
Proof.
  destruct (confidence_card_rows Samples.zero_second [Samples.c_0_9; Samples.c_0_7] eq_refl)
    as (card & Hcard & Hlen & Hnone & _).
  exists card. split; [exact Hcard|]. split; [exact Hlen|].
  apply Hnone. exact Hlen.
Defined.

(** X5.  The ordering card shows a prefix of at most 15 entries of each
    order, and its "..." marks exactly the orders of which some entry is
    hidden. *)
Theorem ordering_card_prefix (result : ProcessingResult) :
  initial_source result =
    initial_shown (ordering_card result) ++ drop 15 (initial_source result) /\
  final_source result =
    final_shown (ordering_card result) ++ drop 15 (final_source result) /\
  length (initial_shown (ordering_card result)) <= 15 /\
  length (final_shown (ordering_card result)) <= 15 /\
  (initial_more (ordering_card result) = true <-> drop 15 (initial_source result) <> []) /\
  (final_more (ordering_card result) = true <-> drop 15 (final_source result) <> []).
Proof.
  assert (Hmore : forall l : list nat, (15 <? length l) = true <-> drop 15 l <> []).
  { intros l. rewrite Nat.ltb_lt. split.
    - intros H E. apply (f_equal length) in E. rewrite length_drop in E. cbn in E. lia.
    - intros H. destruct (Nat.lt_ge_cases 15 (length l)) as [|Hge]; [assumption|].
      destruct H. now apply drop_ge. }
  unfold ordering_card; cbn [initial_shown final_shown initial_more final_more].
  fold (initial_source result). fold (final_source result).
  rewrite !take_drop, !length_take.
  repeat split; try lia; apply Hmore.
Qed.

End Cards.

(* ===================================================================== *)
(** ** ProcessingLogs: more on the average and the preview *)
(* ===================================================================== *)

Section PreviewBounds.

Import JS ProcessingLogs.

Lemma add_NaN_l (x : number) : add NaN x = NaN.
Proof. now destruct x. Qed.

Lemma add_NaN_r (x : number) : add x NaN = NaN.
Proof. now destruct x. Qed.

Lemma fold_add_NaN (cs : list number) : fold_left add cs NaN = NaN.
Proof.
  induction cs as [|c cs IH]; [reflexivity|]. cbn [fold_left]. now rewrite add_NaN_l.
Qed.

Lemma sum_NaN (cs : list number) : In NaN cs -> sum cs = NaN.
Proof.
  unfold sum. generalize zero. induction cs as [|c cs IH]; intros acc H; [destruct H|].
  cbn [fold_left]. destruct H as [->|H].
  - rewrite add_NaN_r. apply fold_add_NaN.
  - now apply IH.
Qed.

(** X6.  One NaN among the confidences makes the average NaN, and the
    summary then draws it in the colour of low confidence. *)
Theorem avgConfidence_NaN_entry (result : ProcessingResult) (cs : list number) :
  metadata_confidences result = Some cs -> In NaN cs ->
  avgConfidence result = NaN /\
  avg_color (summary_card result) = Red.
Proof.
  intros Hcs Hin.
  assert (E : avgConfidence result = NaN).
  { unfold avgConfidence. rewrite Hcs, (sum_NaN cs Hin). reflexivity. }
  split; [exact E|]. unfold summary_card; cbn [avg_color]. now rewrite E.
Qed.

Lemma avgConfidence_NaN_entry_witness :
  avgConfidence
    (Samples.result (Some (Samples.meta [0; 1; 2] (Some [Samples.c_0_9; NaN]) None))) = NaN.
Proof.
  apply (avgConfidence_NaN_entry
           (Samples.result (Some (Samples.meta [0; 1; 2] (Some [Samples.c_0_9; NaN]) None)))
           [Samples.c_0_9; NaN] eq_refl).
  right; left; reflexivity.
Defined.

Lemma length_append (a b : string) :
  String.length (String.append a b) = String.length a + String.length b.
Proof.
  induction a as [|c a IH]; [reflexivity|].
  change (S (String.length (String.append a b)) = S (String.length a + String.length b)).
  now rewrite IH.
Qed.

Lemma preview_entries_lookup (m : Metadata) (sm : gmap nat str) es (p : nat) e :
  summaries m = Some sm -> preview_entries m = Some es -> es !! p = Some e ->
  p < 8 /\ exists pageIdx,
    final_order_at m p = Some pageIdx /\ e = preview_entry sm p pageIdx.
Proof.
  unfold preview_entries, final_order_at. intros ->.
  destruct (final_order m) as [fo|]; intros [= <-]; [|discriminate].
  rewrite list_lookup_imap.
  destruct (take 8 fo !! p) as [pageIdx|] eqn:E; [|discriminate].
  apply lookup_take_Some in E as [E Hlt]. cbn. intros [= <-].
  split; [exact Hlt|]. now exists pageIdx.
Qed.

(** X7.  Every preview entry is for one of the first 8 positions and for
    the page at that position; its text is never longer than 153 UTF-16
    code units; and a page with no stored excerpt gets an empty text, not
    an error. *)
Theorem preview_entry_bounds (m : Metadata) (sm : gmap nat str)
  (es : list PreviewEntry) (p : nat) (e : PreviewEntry) :
  summaries m = Some sm -> preview_entries m = Some es -> es !! p = Some e ->
  p < 8 /\ entry_position e = p /\
  final_order_at m p = Some (entry_page e) /\
  length (entry_shown e) <= 153 /\
  (sm !! entry_page e = None -> entry_shown e = []).
Proof.
  intros Hsm Hes He.
  destruct (preview_entries_lookup m sm es p e Hsm Hes He) as (Hp & pageIdx & Hfo & ->).
  split; [exact Hp|]. split; [reflexivity|]. split; [exact Hfo|].
  unfold entry_shown, preview_entry, preview_text, preview_ellipsis;
    cbn [entry_text entry_ellipsis entry_page].
  destruct (sm !! pageIdx) as [s|]; [|split; [cbn; lia | reflexivity]].
  split; [|discriminate].
  rewrite length_app, replace_line_feeds_length.
  destruct (substring_prefix 150 s) as (_ & _ & ->).
  destruct (150 <? length s); cbn [length lit map list_ascii_of_string]; lia.
Qed.

Lemma preview_entry_bounds_witness :
  exists es e,
    preview_entries Samples.with_long_excerpt = Some es /\ es !! 0 = Some e /\
    length (entry_shown e) <= 153.
Proof.
  eexists. eexists. split; [reflexivity|]. split; [reflexivity|].
  destruct (preview_entry_bounds Samples.with_long_excerpt _ _ 0 _
              eq_refl eq_refl eq_refl) as (_ & _ & _ & H & _).
  exact H.
Defined.

(** X8.  The badge of preview position [p] carries the same confidence
    and the same colour as transition row [p]; it is left out when that
    confidence is 0 or NaN, and at every position from the number of
    confidences on. *)
Theorem preview_badge_matches_row (m : Metadata) (cs : list number) (p : nat) :
  confidences m = Some cs ->
  (forall row, transition_rows m cs !! p = Some row ->
     preview_badge m p =
       if truthy (row_conf row)
       then SlotBadge (row_color row) (row_conf row)
       else SlotNumber (row_conf row)) /\
  (length cs <= p -> preview_badge m p = SlotUndefined).
Proof.
  intros Hcs. unfold preview_badge. rewrite Hcs. split.
  - intros row Hrow. apply transition_rows_lookup in Hrow as (_ & conf & -> & ->).
    reflexivity.
  - intros H. now rewrite (lookup_ge_None_2 cs p H).
Qed.

Lemma preview_badge_matches_row_witness :
  preview_badge Samples.zero_second 0 = SlotBadge Green Samples.c_0_9 /\
  preview_badge Samples.zero_second 2 = SlotUndefined.
Proof.
  destruct (preview_badge_matches_row Samples.zero_second
              [Samples.c_0_9; Samples.c_0_7] 0 eq_refl) as [Hrow _].
  destruct (preview_badge_matches_row Samples.zero_second
              [Samples.c_0_9; Samples.c_0_7] 2 eq_refl) as [_ Hout].
  split; [exact (Hrow _ eq_refl) | apply Hout; cbn; lia].
Defined.

End PreviewBounds.

(* ===================================================================== *)
(** ** PDFViewer: walking through the pages *)
(* ===================================================================== *)

Section Walk.

Import PDFViewer.
Local Open Scope Z_scope.

Lemma press_runs_handler (s : State) :
  1 <= numPages s -> page_in_range s ->
  step s PressPrev = goToPrevPage s /\ step s PressNext = goToNextPage s.
Proof.
  intros Hn [Hlo Hhi]. destruct s as [n p]; cbn in *.
  unfold controls_rendered, prev_disabled, next_disabled, goToPrevPage, goToNextPage;
    cbn [numPages pageNumber].
  assert (E : (0 <? n) = true) by (apply Z.ltb_lt; lia). rewrite E; cbn [andb].
  split.
  - destruct (p <=? 1) eqn:P; cbn [negb]; [|reflexivity].
    apply Z.leb_le in P. f_equal. lia.
  - destruct (n <=? p) eqn:P; cbn [negb]; [|reflexivity].
    apply Z.leb_le in P. f_equal. lia.
Qed.

(** X9.  On a document with at least one page the [disabled] attributes
    never change what a press does: at the first page [goToPrevPage]
    stays there, at the last page [goToNextPage] stays there.  The
    buttons are disabled exactly at those two pages. *)
Theorem press_is_handler (s : State) :
  1 <= numPages s -> page_in_range s ->
  step s PressPrev = goToPrevPage s /\
  step s PressNext = goToNextPage s /\
  (prev_disabled s = true <-> pageNumber s = 1) /\
  (next_disabled s = true <-> pageNumber s = numPages s).
Proof.
  intros Hn Hr. destruct (press_runs_handler s Hn Hr) as [Hp Hx].
  split; [exact Hp|]. split; [exact Hx|].
  destruct Hr as [Hlo Hhi]. unfold prev_disabled, next_disabled.
  rewrite !Z.leb_le. lia.
Qed.

Lemma press_is_handler_witness :
  step (onDocumentLoadSuccess 3 initial) PressPrev = onDocumentLoadSuccess 3 initial /\
  prev_disabled (onDocumentLoadSuccess 3 initial) = true.
Proof.
  assert (Hn : 1 <= numPages (onDocumentLoadSuccess 3 initial)) by (cbn; lia).
  destruct (press_is_handler _ Hn (load_in_range 3 initial)) as (Hprev & _ & Hdis & _).
  split; [rewrite Hprev; reflexivity | apply Hdis; reflexivity].
Defined.

Lemma next_presses (k : nat) (s : State) :
  1 <= numPages s -> page_in_range s ->
  run s (repeat PressNext k) =
    {| numPages := numPages s;
       pageNumber := Z.min (pageNumber s + Z.of_nat k) (numPages s) |}.
Proof.
  revert s. induction k as [|k IH]; intros s Hn Hr.
  - destruct s as [n p]. destruct Hr as [Hlo Hhi]. cbn in *. f_equal. lia.
  - cbn [repeat]. unfold run in *. cbn [fold_left].
    destruct (press_runs_handler s Hn Hr) as (_ & ->).
    rewrite IH.
    + destruct s as [n p]. destruct Hr as [Hlo Hhi]. cbn in *. f_equal. lia.
    + exact Hn.
    + now apply goToNextPage_in_range.
Qed.

(** X10.  After a document of [n >= 1] pages has loaded, [k] presses of
    the next button lead to page [min (1 + k) n]; so every page from 1 to
    [n] is reached, and no page beyond. *)
Theorem next_presses_reach (n : Z) (s0 : State) (k : nat) :
  1 <= n ->
  run (onDocumentLoadSuccess n s0) (repeat PressNext k) =
    {| numPages := n; pageNumber := Z.min (1 + Z.of_nat k) n |}.
Proof.
  intros Hn. rewrite next_presses; [reflexivity | exact Hn | apply load_in_range].
Qed.

Lemma next_presses_reach_witness :
  pageNumber (run (onDocumentLoadSuccess 3 initial) (repeat PressNext 1)) = 2 /\
  pageNumber (run (onDocumentLoadSuccess 3 initial) (repeat PressNext 7)) = 3.
Proof.
  split.
  - rewrite (next_presses_reach 3 initial 1); [reflexivity | lia].
  - rewrite (next_presses_reach 3 initial 7); [reflexivity | lia].
Defined.

(** X11.  Away from the two ends, next and previous undo each other:
    next then previous returns to the page one started from unless that
    was the last page, and previous then next unless it was the first. *)
Theorem next_prev_round_trip (s : State) :
  page_in_range s ->
  (pageNumber s < numPages s -> step (step s PressNext) PressPrev = s) /\
  (1 < pageNumber s -> step (step s PressPrev) PressNext = s).
Proof.
  intros Hr. destruct s as [n p]. pose proof Hr as [Hlo Hhi]. cbn in Hlo, Hhi.
  assert (Hn : 1 < p -> 1 <= n) by lia.
  split; intros H; cbn in H.
  - assert (Hn' : 1 <= numPages {| numPages := n; pageNumber := p |}) by (cbn; lia).
    destruct (press_runs_handler _ Hn' Hr) as (_ & ->).
    assert (Hr' : page_in_range (goToNextPage {| numPages := n; pageNumber := p |}))
      by now apply goToNextPage_in_range.
    destruct (press_runs_handler (goToNextPage {| numPages := n; pageNumber := p |}) Hn' Hr')
      as (-> & _).
    unfold goToPrevPage, goToNextPage; cbn [numPages pageNumber]. f_equal. lia.
  - assert (Hn' : 1 <= numPages {| numPages := n; pageNumber := p |}) by (cbn; lia).
    destruct (press_runs_handler _ Hn' Hr) as (-> & _).
    assert (Hr' : page_in_range (goToPrevPage {| numPages := n; pageNumber := p |}))
      by now apply goToPrevPage_in_range.
    destruct (press_runs_handler (goToPrevPage {| numPages := n; pageNumber := p |}) Hn' Hr')
      as (_ & ->).
    unfold goToPrevPage, goToNextPage; cbn [numPages pageNumber]. f_equal. lia.
Qed.

Lemma next_prev_round_trip_witness :
  step (step (onDocumentLoadSuccess 3 initial) PressNext) PressPrev
    = onDocumentLoadSuccess 3 initial.
Proof.
  destruct (next_prev_round_trip _ (load_in_range 3 initial)) as [H _].
  apply H. cbn. lia.
Defined.

End Walk.

(* ===================================================================== *)
(** ** TerminalLogs: colours and line numbers *)
(* ===================================================================== *)

Section Terminal.

Import JS TerminalLogs.

Lemma prefix_append (needle b : string) : String.prefix needle (String.append needle b) = true.
Proof.
  induction needle as [|c needle IH]; [now destruct b|].
  change (String.prefix (String c needle) (String c (String.append needle b)) = true).
  cbn. destruct (ascii_dec c c) as [_|N]; [exact IH | now destruct N].
Qed.

Lemma prefix_split (needle s : string) :
  String.prefix needle s = true -> exists b, s = String.append needle b.
Proof.
  revert s. induction needle as [|c needle IH]; intros s H.
  - now exists s.
  - destruct s as [|d s]; [discriminate|]. cbn in H.
    destruct (ascii_dec c d) as [<-|_]; [|discriminate].
    destruct (IH s H) as [b ->]. now exists b.
Qed.

(** [includes] finds exactly the strings that hold the needle. *)
Lemma includes_spec (s needle : string) :
  includes s needle = true <->
  exists a b, s = String.append a (String.append needle b).
Proof.
  split.
  - induction s as [|c s IH]; cbn [includes]; intros H.
    + rewrite orb_false_r in H. destruct (prefix_split _ _ H) as [b ->].
      now exists EmptyString, b.
    + apply orb_prop in H as [H|H].
      * destruct (prefix_split _ _ H) as [b ->]. now exists EmptyString, b.
      * destruct (IH H) as (a & b & ->). now exists (String c a), b.
  - intros (a & b & ->). induction a as [|c a IH].
    + change (includes (String.append needle b) needle = true).
      destruct (String.append needle b) eqn:E; cbn [includes];
        rewrite <- E, prefix_append; reflexivity.
    + change (includes (String c (String.append a (String.append needle b))) needle = true).
      cbn [includes]. rewrite IH. apply orb_true_r.
Qed.

(** X12.  A log line that holds one of the success markers is green
    whatever stands before and after it, error and warning markers
    included. *)
Theorem success_marker_wins (a b marker : string) :
  In marker ["✓"; "✅"; "Success"; "complete"]%string ->
  getLogColor (String.append a (String.append marker b)) = text_green_400.
Proof.
  intros Hin.
  assert (H : includes (String.append a (String.append marker b)) marker = true)
    by (apply includes_spec; now exists a, b).
  unfold getLogColor.
  destruct Hin as [<-|[<-|[<-|[<-|[]]]]]; rewrite H;
    rewrite ?orb_true_r; reflexivity.
Qed.

Lemma success_marker_wins_witness :
  getLogColor "Error: upload failed, retry complete" = text_green_400.
Proof.
  apply (success_marker_wins "Error: upload failed, retry " EmptyString "complete").
  right; right; right; left; reflexivity.
Defined.

Lemma repeat_unit_length (c : ascii) (n : nat) : String.length (repeat_unit c n) = n.
Proof. induction n as [|n IH]; cbn; congruence. Qed.

Lemma padStart_length (s : string) (target : nat) (c : ascii) :
  String.length (padStart s target c) = Nat.max target (String.length s).
Proof. unfold padStart. rewrite length_append, repeat_unit_length. lia. Qed.

Lemma uint_of_padded (k : nat) (s : string) (d : uint) :
  NilEmpty.uint_of_string s = Some d ->
  option_map Nat.of_uint
    (NilEmpty.uint_of_string (String.append (repeat_unit "0"%char k) s))
  = Some (Nat.of_uint d).
Proof.
  intros H. induction k as [|k IH].
  - change (option_map Nat.of_uint (NilEmpty.uint_of_string s) = Some (Nat.of_uint d)).
    now rewrite H.
  - change (option_map Nat.of_uint
              (uint_of_char "0"%char
                 (NilEmpty.uint_of_string (String.append (repeat_unit "0"%char k) s)))
            = Some (Nat.of_uint d)).
    destruct (NilEmpty.uint_of_string (String.append (repeat_unit "0"%char k) s)) as [d'|];
      [|discriminate IH].
    cbn in IH. injection IH as IH. cbn. f_equal. exact IH.
Qed.

(** X13.  The number drawn before log line [index] reads back as
    [index + 1], has at least three digits, and is different for
    different lines. *)
Theorem line_label_reads_back (index : nat) :
  option_map Nat.of_uint (NilEmpty.uint_of_string (line_label index)) = Some (index + 1) /\
  3 <= String.length (line_label index) /\
  (forall other, line_label index = line_label other -> index = other).
Proof.
  assert (R : forall i,
    option_map Nat.of_uint (NilEmpty.uint_of_string (line_label i)) = Some (i + 1)).
  { intros i. unfold line_label, padStart, String_of_nat.
    rewrite (uint_of_padded _ _ _ (NilEmpty.usu (Nat.to_uint (i + 1)))).
    now rewrite DecimalNat.Unsigned.of_to. }
  split; [apply R|]. split.
  - unfold line_label. rewrite padStart_length. lia.
  - intros other E. pose proof (R index) as Hi. rewrite E, R in Hi.
    injection Hi as Hi. lia.
Qed.

Lemma line_label_reads_back_witness :
  option_map Nat.of_uint (NilEmpty.uint_of_string (line_label 41)) = Some 42 /\
  line_label 41 = "042"%string.
Proof.
  split; [exact (proj1 (line_label_reads_back 41)) | reflexivity].
Defined.

(** The lines are numbered 001, 002, ... *)
Lemma line_label_samples :
  map line_label [0; 1; 41; 998; 999; 1233] =
  ["001"; "002"; "042"; "999"; "1000"; "1234"]%string.
Proof. reflexivity. Qed.

(** X18.  The terminal shows a placeholder, and disables the copy button,
    exactly when there is no log; otherwise it draws one line per log, in
    order, each with its own text, its colour and its number, and the
    processing indicator follows the lines exactly while processing. *)
Theorem body_lines (logs : list string) (isProcessing : bool) :
  (logs = [] ->
     copy_disabled logs = true /\
     body logs isProcessing =
       if isProcessing then PlaceholderProcessing else PlaceholderIdle) /\
  (logs <> [] ->
     copy_disabled logs = false /\
     exists lines,
       body logs isProcessing = Lines lines isProcessing /\
       length lines = length logs /\
       forall k log, logs !! k = Some log ->
         lines !! k = Some {| line_color := getLogColor log;
                              line_number := line_label k;
                              line_text := log |}).
Proof.
  split.
  - intros ->. split; reflexivity.
  - intros H. destruct logs as [|l logs]; [contradiction|]. split; [reflexivity|].
    exists (imap log_line (l :: logs)). unfold body; cbn [length Nat.eqb Nat.ltb Nat.leb].
    rewrite andb_true_r. split; [reflexivity|].
    split; [rewrite length_imap; reflexivity|].
    intros k log Hk. now rewrite list_lookup_imap, Hk.
Qed.

Lemma body_lines_witness :
  body ["Testing strategy"; "done"]%string true =
    Lines [log_line 0 "Testing strategy"; log_line 1 "done"] true.
Proof.
  destruct (body_lines ["Testing strategy"; "done"]%string true) as [_ H].
  destruct H as (_ & lines & Hbody & _ & Hl); [discriminate|].
  rewrite Hbody. f_equal.
  pose proof (Hl 0 _ eq_refl) as H0. pose proof (Hl 1 _ eq_refl) as H1.
  destruct lines as [|a [|b [|c lines]]]; try discriminate.
  cbn in H0, H1. injection H0 as ->. injection H1 as ->. reflexivity.
Defined.

Lemma append_assoc (a b c : string) :
  String.append (String.append a b) c = String.append a (String.append b c).
Proof.
  induction a as [|x a IH]; [reflexivity|].
  change (String x (String.append (String.append a b) c)
          = String x (String.append a (String.append b c))).
  now rewrite IH.
Qed.

Lemma join_cons (sep x : string) (xs : list string) :
  join sep (x :: xs) =
  match xs with
  | [] => x
  | _ :: _ => String.append x (String.append sep (join sep xs))
  end.
Proof. destruct xs; reflexivity. Qed.

(** X19.  The text [handleCopy] writes to the clipboard holds every log
    line; for a single line it is that line, and consecutive lines are
    separated by one line feed. *)
Theorem handleCopy_holds_every_line (logs : list string) (log : string) :
  In log logs ->
  includes (handleCopy logs) log = true /\
  (logs = [log] -> handleCopy logs = log) /\
  (forall rest, logs = log :: rest -> rest <> [] ->
     handleCopy logs =
       String.append log (String.append (String line_feed EmptyString) (handleCopy rest))).
Proof.
  intros Hin. split; [|split].
  - apply includes_spec. unfold handleCopy.
    induction logs as [|x xs IH]; [destruct Hin|].
    rewrite join_cons. destruct Hin as [->|Hin].
    + destruct xs as [|y ys].
      * exists EmptyString, EmptyString. cbn. now rewrite append_empty.
      * exists EmptyString. eexists. reflexivity.
    + destruct xs as [|y ys]; [destruct Hin|].
      destruct (IH Hin) as (a & b & E). rewrite E.
      exists (String.append x (String.append (String line_feed EmptyString) a)), b.
      now rewrite !append_assoc.
  - intros ->. reflexivity.
  - intros rest -> Hrest. unfold handleCopy. rewrite join_cons.
    destruct rest; [contradiction | reflexivity].
Qed.

Lemma handleCopy_holds_every_line_witness :
  includes (handleCopy ["one"; "two"; "three"]%string) "two" = true.
Proof.
  apply (handleCopy_holds_every_line ["one"; "two"; "three"]%string "two").
  right; left; reflexivity.
Defined.

End Terminal.

(* ===================================================================== *)
(** ** Index: the upload page *)
(* ===================================================================== *)

Section UploadPage.

Import Index.

Lemma start_consistent : consistent start.
Proof. unfold consistent; cbn. repeat split; auto; discriminate. Qed.

Lemma unmounted_consistent : consistent unmounted.
Proof. unfold consistent; cbn. repeat split; auto; discriminate. Qed.

Lemma step_consistent (w : World) (e : Event) : consistent w -> consistent (step w e).
Proof.
  intros Hw. unfold step. destruct (mounted w) eqn:M; cbn [negb]; [|exact Hw].
  revert Hw. unfold consistent. destruct w as [s fl mt]. intros (H1 & H2 & H3 & H4 & _).
  cbn [page inflight mounted] in *. subst mt.
  assert (Hm : forall w' : World, mounted w' = true -> mounted w' = false -> w' = unmounted)
    by (intros w' -> [=]).
  destruct e as [sel| |pct|o]; cbn [page inflight].
  - cbn. intuition (try discriminate; auto).
  - unfold upload_disabled. destruct (loading s) eqn:L; cbn [orb].
    + cbn [page inflight mounted]. rewrite L. intuition (try discriminate; auto).
    + destruct (file s) as [f|] eqn:F; cbn.
      * unfold handleUpload_start. rewrite F. cbn. intuition (try discriminate; auto).
      * rewrite L. intuition (try discriminate; auto).
  - destruct fl; cbn [page inflight mounted]; [|intuition (try discriminate; auto)].
    destruct pct as [p|]; cbn; intuition (try discriminate; auto).
  - destruct fl; cbn [page inflight mounted]; [|intuition (try discriminate; auto)].
    symmetry in H1. destruct (H2 H1) as [He Hr].
    destruct o as [[|lines| |] url|]; cbn [handleUpload_settle];
      try apply unmounted_consistent;
      cbn; rewrite ?He, ?Hr;
      repeat split; auto; try discriminate;
      right; repeat split; auto; apply last_snoc.
Qed.

(** What holds of the page after any sequence of events. *)
Lemma page_invariant (es : list Event) : consistent (run start es).
Proof.
  unfold run. generalize start, start_consistent.
  induction es as [|e es IH]; intros w Hw; [exact Hw|].
  cbn [fold_left]. apply IH. now apply step_consistent.
Qed.

(** X14.  After any sequence of events a request is pending exactly
    while [loading] is set; the upload button is then disabled, so a press
    starts no second request. *)
Theorem one_request_at_a_time (es : list Event) :
  inflight (run start es) = loading (page (run start es)) /\
  (inflight (run start es) = true -> step (run start es) PressUpload = run start es).
Proof.
  destruct (page_invariant es) as (H1 & _). split; [exact H1|].
  intros H. unfold step. destruct (negb (mounted (run start es))); [reflexivity|].
  unfold upload_disabled. rewrite <- H1, H. reflexivity.
Qed.

Lemma one_request_at_a_time_witness :
  inflight (run start [SelectFile (Some ({| file_name := "shuffled.pdf" |}, "blob:1"%string));
                       PressUpload; PressUpload]) = true /\
  backendLogs (page (run start
                 [SelectFile (Some ({| file_name := "shuffled.pdf" |}, "blob:1"%string));
                  PressUpload; PressUpload]))
    = [starting; uploading {| file_name := "shuffled.pdf" |}].
Proof.
  split; [reflexivity|].
  destruct (one_request_at_a_time
              [SelectFile (Some ({| file_name := "shuffled.pdf" |}, "blob:1"%string));
               PressUpload]) as [_ H].
  specialize (H eq_refl).
  change (backendLogs (page (step (run start
            [SelectFile (Some ({| file_name := "shuffled.pdf" |}, "blob:1"%string));
             PressUpload]) PressUpload))
          = [starting; uploading {| file_name := "shuffled.pdf" |}]).
  rewrite H. reflexivity.
Defined.

(** X15.  The page never holds an error and a reconstructed document at
    the same time, and the only error the button can lead to is the
    upload failure: "Please select a PDF file first." is never set. *)
Theorem error_excludes_result (es : list Event) :
  (error (page (run start es)) = None \/ reconstructedPdfUrl (page (run start es)) = None) /\
  (error (page (run start es)) = None \/ error (page (run start es)) = Some errorMsg) /\
  error (page (run start es)) <> Some select_first.
Proof.
  destruct (page_invariant es) as (_ & _ & [H|(H & Hr & _)] & _).
  - repeat split; auto. rewrite H. discriminate.
  - repeat split; auto. rewrite H. discriminate.
Qed.

(** X16.  Whenever a reconstructed document is on the page the last log
    line is the completion message, and the terminal draws it green;
    whenever an error is on the page the last log line is the failure
    message, drawn red.  In both cases the page is still mounted and the
    terminal is shown. *)
Theorem last_log_tells_outcome (es : list Event) :
  (reconstructedPdfUrl (page (run start es)) <> None ->
     last (backendLogs (page (run start es))) = Some completed /\
     is_Some (terminal (page (run start es))) /\
     mounted (run start es) = true) /\
  (error (page (run start es)) <> None ->
     last (backendLogs (page (run start es))) = Some (failed errorMsg) /\
     is_Some (terminal (page (run start es))) /\
     mounted (run start es) = true) /\
  TerminalLogs.getLogColor completed = TerminalLogs.text_green_400 /\
  TerminalLogs.getLogColor (failed errorMsg) = TerminalLogs.text_red_400.
Proof.
  assert (Hterm : forall s x, last (backendLogs s) = Some x -> is_Some (terminal s)).
  { intros s x H. unfold terminal. destruct (backendLogs s) as [|l ls]; [discriminate|].
    cbn. eauto. }
  destruct (page_invariant es) as (_ & _ & He & Hr & Hm).
  assert (Hmounted : last (backendLogs (page (run start es))) <> None ->
                     mounted (run start es) = true).
  { intros H. destruct (mounted (run start es)) eqn:M; [reflexivity|].
    rewrite (Hm eq_refl) in H. now destruct H. }
  split; [|split; [|split; reflexivity]].
  - intros H. destruct Hr as [Hr|Hr]; [contradiction|].
    split; [exact Hr|]. split; [eauto|]. apply Hmounted. now rewrite Hr.
  - intros H. destruct He as [He|(_ & _ & He)]; [contradiction|].
    split; [exact He|]. split; [eauto|]. apply Hmounted. now rewrite He.
Qed.

Lemma last_log_tells_outcome_witness :
  reconstructedPdfUrl (page (run start
    [SelectFile (Some ({| file_name := "shuffled.pdf" |}, "blob:1"%string));
     PressUpload; Settle (Resolved (Decoded ["Strategy page_number"%string]) "blob:2")]))
    = Some "blob:2"%string /\
  last (backendLogs (page (run start
    [SelectFile (Some ({| file_name := "shuffled.pdf" |}, "blob:1"%string));
     PressUpload; Settle (Resolved (Decoded ["Strategy page_number"%string]) "blob:2")])))
    = Some completed.
Proof.
  split; [reflexivity|].
  destruct (last_log_tells_outcome
    [SelectFile (Some ({| file_name := "shuffled.pdf" |}, "blob:1"%string));
     PressUpload; Settle (Resolved (Decoded ["Strategy page_number"%string]) "blob:2")])
    as (H & _).
  apply H. discriminate.
Defined.



(** A header that decodes to a number: the page is removed, and every
    later event finds nothing to act on. *)
Lemma unrenderable_header_unmounts :
  run start [SelectFile (Some ({| file_name := "a.pdf" |}, "blob:a"%string));
             PressUpload; Settle (Resolved Unrenderable "blob:result");
             SelectFile (Some ({| file_name := "b.pdf" |}, "blob:b"%string)); PressUpload]
  = unmounted.
Proof. reflexivity. Qed.

End UploadPage.
